(** * AgentCore Memory Browser: a model of [static/js/app.js]

    The browser application is embedded function by function.

    - A JavaScript string is a Rocq string that holds its text in UTF-8,
      the bytes that [encodeURIComponent] escapes.  [length] and
      [substring] count UTF-16 code units, which are read off the bytes: a
      character of four bytes has two.  A high surrogate that stands alone,
      as [substring] can leave one, is written as the three bytes [ED A0 80]
      to [ED AF BF].  [trim] strips the white space and the line terminators
      of the language, those above U+007F among them.
    - The two objects used as dictionaries, [currentEventsData] and
      [currentRecordsData], are finite maps from property keys to values
      for their own properties.  A lookup that finds no own property goes on
      to the prototype: the members of [Object.prototype] are found by their
      names.  An assignment to the key [__proto__] makes its value the
      prototype and creates no property: the map keeps that value at the
      key [__proto__], which [Object.keys] does not count and [delete] does
      not remove.  All of this is [Cache].
    - The page is a forest of element and text nodes.  Markup written by a
      template literal is the tree a browser parses it to when the values
      that the template interpolates without escaping are plain
      ([JsString.plain] for an id, which also stands in a selector, and
      [JsString.plainText] for text); what is proved of a rendered table or
      of a row found by a selector is proved for such values.  White space
      between tags is left out.
    - An asynchronous handler is a function of the state before the call and
      of the outcome of its one [fetch]. *)

From Stdlib Require Import String Ascii List Bool Arith Lia.
From Stdlib Require Import DecimalString.
From stdpp Require Import gmap strings list.

Set Warnings "-register-all".
Local Open Scope nat_scope.

(** ** Strings as the built-ins of the language treat them *)

Module JsString.

Fixpoint drop (n : nat) (s : string) : string :=
  match n, s with
  | S n', String _ s' => drop n' s'
  | _, _ => s
  end.

(** [splitAtFirst pat s] cuts [s] around the leftmost occurrence of [pat]:
    the text before it and the text after it. *)
Fixpoint splitAtFirst (pat s : string) : option (string * string) :=
  if String.prefix pat s then Some (EmptyString, drop (String.length pat) s)
  else match s with
       | EmptyString => None
       | String c s' =>
           match splitAtFirst pat s' with
           | Some (before, after) => Some (String c before, after)
           | None => None
           end
       end.

(** [String.prototype.includes] *)
Definition includes (s pat : string) : bool :=
  match splitAtFirst pat s with Some _ => true | None => false end.

(** The replacement-text expansion that [String.prototype.replace] applies
    to a string replacement when the pattern is a string (no captures):
    [$$] is a dollar sign, [$&] the matched text, [$`] the text before the
    match and [$'] the text after it; every other character stands for
    itself. *)
Fixpoint getSubstitution (matched before after template : string) : string :=
  match template with
  | EmptyString => EmptyString
  | String c rest =>
      if Ascii.eqb c "$" then
        match rest with
        | String d rest' =>
            if Ascii.eqb d "$" then String "$" (getSubstitution matched before after rest')
            else if Ascii.eqb d "&" then matched +:+ getSubstitution matched before after rest'
            else if Ascii.eqb d "`" then before +:+ getSubstitution matched before after rest'
            else if Ascii.eqb d "'" then after +:+ getSubstitution matched before after rest'
            else String c (getSubstitution matched before after rest)
        | EmptyString => String c EmptyString
        end
      else String c (getSubstitution matched before after rest)
  end.

(** [s.replace(pat, replacement)] with a string pattern: only the leftmost
    occurrence is replaced. *)
Definition replace (s pat replacement : string) : string :=
  match splitAtFirst pat s with
  | Some (before, after) =>
      before +:+ getSubstitution pat before after replacement +:+ after
  | None => s
  end.

(** The white space and the line terminators that [String.prototype.trim]
    strips.  Those of one byte: TAB, LF, VT, FF, CR and SPACE. *)
Definition isWhiteSpace (c : ascii) : bool :=
  let n := nat_of_ascii c in
  ((9 <=? n) && (n <=? 13)) || (n =? 32).

(** U+00A0, the no-break space: [C2 A0]. *)
Definition isWhiteSpace2 (c1 c2 : ascii) : bool :=
  (nat_of_ascii c1 =? 194) && (nat_of_ascii c2 =? 160).

(** U+1680: [E1 9A 80]; U+2000 to U+200A, U+2028, U+2029 and U+202F:
    [E2 80 80] to [E2 80 8A], [E2 80 A8], [E2 80 A9] and [E2 80 AF];
    U+205F: [E2 81 9F]; U+3000: [E3 80 80]; U+FEFF: [EF BB BF]. *)
Definition isWhiteSpace3 (c1 c2 c3 : ascii) : bool :=
  let n1 := nat_of_ascii c1 in
  let n2 := nat_of_ascii c2 in
  let n3 := nat_of_ascii c3 in
  ((n1 =? 225) && (n2 =? 154) && (n3 =? 128))
  || ((n1 =? 226) && (n2 =? 128)
      && (((128 <=? n3) && (n3 <=? 138)) || (n3 =? 168) || (n3 =? 169) || (n3 =? 175)))
  || ((n1 =? 226) && (n2 =? 129) && (n3 =? 159))
  || ((n1 =? 227) && (n2 =? 128) && (n3 =? 128))
  || ((n1 =? 239) && (n2 =? 187) && (n3 =? 191)).

Fixpoint trimStart (s : string) : string :=
  match s with
  | EmptyString => EmptyString
  | String c1 s1 =>
      if isWhiteSpace c1 then trimStart s1
      else
        match s1 with
        | EmptyString => s
        | String c2 s2 =>
            if isWhiteSpace2 c1 c2 then trimStart s2
            else
              match s2 with
              | EmptyString => s
              | String c3 s3 => if isWhiteSpace3 c1 c2 c3 then trimStart s3 else s
              end
        end
  end.

(** The text is cut where only white space follows. *)
Fixpoint trimEnd (s : string) : string :=
  match s with
  | EmptyString => EmptyString
  | String c s' =>
      match trimStart s with
      | EmptyString => EmptyString
      | _ => String c (trimEnd s')
      end
  end.

Definition trim (s : string) : string := trimEnd (trimStart s).

(** Truthiness of a string: the empty string is the only falsy one. *)
Definition truthy (s : string) : bool :=
  match s with EmptyString => false | _ => true end.

(** A number in a template literal. *)
Definition ofNat (n : nat) : string := NilEmpty.string_of_uint (Nat.to_uint n).

(** A possibly missing string property in a template literal or as a
    property key. *)
Definition ofProperty (o : option string) : string := default "undefined" o.

(** [a || b] on two possibly missing string properties. *)
Definition orElse (a b : option string) : option string :=
  match a with
  | Some s => if truthy s then a else b
  | None => b
  end.

Fixpoint hasChar (c : ascii) (s : string) : bool :=
  match s with
  | EmptyString => false
  | String d s' => Ascii.eqb c d || hasChar c s'
  end.

(** A byte that continues a character: [10xxxxxx]. *)
Definition isContinuation (c : ascii) : bool :=
  let n := nat_of_ascii c in (128 <=? n) && (n <? 192).

(** The UTF-16 code units that the character begun by a byte takes: two
    when the byte begins a character of four bytes, one otherwise, and a
    byte that continues a character adds none. *)
Definition units (c : ascii) : nat :=
  if isContinuation c then 0
  else if 240 <=? nat_of_ascii c then 2 else 1.

(** [s.length] *)
Fixpoint length (s : string) : nat :=
  match s with
  | EmptyString => 0
  | String c s' => units c + length s'
  end.

(** The first code unit of a character of four bytes, the high surrogate,
    from the first byte and the two after it; standing alone it is written
    as the three bytes [ED A0 80] to [ED AF BF]. *)
Definition highSurrogate (c1 : ascii) (rest : string) : string :=
  match rest with
  | String c2 (String c3 _) =>
      let hi := 863 * 64 + (nat_of_ascii c1 mod 8) * 256 + (nat_of_ascii c2 mod 64) * 4
                + (nat_of_ascii c3 mod 64) / 16 in
      String (ascii_of_nat 237)
        (String (ascii_of_nat (128 + (hi / 64) mod 64))
           (String (ascii_of_nat (128 + hi mod 64)) EmptyString))
  | _ => EmptyString
  end.

(** [s.substring(0, n)]: the first [n] code units.  A character of two
    code units of which only the first fits is cut in two. *)
Fixpoint substring (n : nat) (s : string) : string :=
  match s with
  | EmptyString => EmptyString
  | String c s' =>
      if isContinuation c then String c (substring n s')
      else
        match n with
        | 0 => EmptyString
        | S n' =>
            if 240 <=? nat_of_ascii c then
              match n' with
              | 0 => highSurrogate c s'
              | S n'' => String c (substring n'' s')
              end
            else String c (substring n' s')
        end
  end.

(** What the HTML parser makes of text in which no markup is left: U+0000
    is dropped, CR LF and CR become LF. *)
Fixpoint parsedText (s : string) : string :=
  match s with
  | EmptyString => EmptyString
  | String c s' =>
      if nat_of_ascii c =? 0 then parsedText s'
      else if nat_of_ascii c =? 13 then
        match s' with
        | String d _ =>
            if nat_of_ascii d =? 10 then parsedText s'
            else String (ascii_of_nat 10) (parsedText s')
        | EmptyString => String (ascii_of_nat 10) EmptyString
        end
      else String c (parsedText s')
  end.

(** A character that markup, an attribute value between double quotes and
    a selector string between double quotes all read as it is written: no
    control character, and none of the double quote, the ampersand, the
    less-than sign and the backslash. *)
Definition plainChar (c : ascii) : bool :=
  let n := nat_of_ascii c in
  (32 <=? n) && negb ((n =? 34) || (n =? 38) || (n =? 60) || (n =? 92)).

Fixpoint allPlain (s : string) : bool :=
  match s with
  | EmptyString => true
  | String c s' => plainChar c && allPlain s'
  end.

(** Text that a template can interpolate into markup and into a selector
    without changing what is parsed: not empty and of such characters. *)
Definition plain (s : string) : bool := truthy s && allPlain s.

(** What the parser reads as the value of an attribute that a template
    writes between double quotes around [s]: the text up to the first double
    quote.  Character references and control characters are not followed:
    there the answer is [None]. *)
Fixpoint readAttribute (s : string) : option string :=
  match s with
  | EmptyString => Some EmptyString
  | String c s' =>
      let n := nat_of_ascii c in
      if n =? 34 then Some EmptyString
      else if (n <? 32) || (n =? 38) then None
      else
        match readAttribute s' with
        | Some value => Some (String c value)
        | None => None
        end
  end.

(** A character that the content of an element reads as it is written: no
    control character, and neither the ampersand nor the less-than sign. *)
Definition plainTextChar (c : ascii) : bool :=
  let n := nat_of_ascii c in
  (32 <=? n) && negb ((n =? 38) || (n =? 60)).

Fixpoint allPlainText (s : string) : bool :=
  match s with
  | EmptyString => true
  | String c s' => plainTextChar c && allPlainText s'
  end.

(** Text that a template can interpolate into the content of an element. *)
Definition plainText (s : string) : bool := truthy s && allPlainText s.

(** The longest prefix of [s] without the character [c], and the rest. *)
Fixpoint spanNot (c : ascii) (s : string) : string * string :=
  match s with
  | EmptyString => (EmptyString, EmptyString)
  | String d s' =>
      if Ascii.eqb c d then (EmptyString, s)
      else let (run, rest) := spanNot c s' in (String d run, rest)
  end.

(** The characters [encodeURIComponent] leaves as they are: letters,
    digits and [- _ . ! ~ * ' ( )]. *)
Definition isUnreserved (c : ascii) : bool :=
  let n := nat_of_ascii c in
  ((65 <=? n) && (n <=? 90)) || ((97 <=? n) && (n <=? 122))
  || ((48 <=? n) && (n <=? 57)) || hasChar c "-_.!~*'()".

Definition hexDigit (n : nat) : ascii :=
  match String.get n "0123456789ABCDEF" with Some c => c | None => "0"%char end.

(** Every byte that is not unreserved becomes [%XX]. *)
Fixpoint encodeURIComponent (s : string) : string :=
  match s with
  | EmptyString => EmptyString
  | String c s' =>
      if isUnreserved c then String c (encodeURIComponent s')
      else let n := nat_of_ascii c in
           String "%" (String (hexDigit (n / 16)) (String (hexDigit (n mod 16))
                                                     (encodeURIComponent s')))
  end.

(** The characters outside ASCII whose upper case is ASCII text: U+00DF
    [C3 9F] gives SS, U+0131 [C4 B1] gives I, U+017F [C5 BF] gives S. *)
Definition upper2 (c1 c2 : ascii) : option string :=
  let n1 := nat_of_ascii c1 in
  let n2 := nat_of_ascii c2 in
  if (n1 =? 195) && (n2 =? 159) then Some "SS"
  else if (n1 =? 196) && (n2 =? 177) then Some "I"
  else if (n1 =? 197) && (n2 =? 191) then Some "S"
  else None.

(** And the ligatures U+FB00 to U+FB06, [EF AC 80] to [EF AC 86]. *)
Definition upper3 (c1 c2 c3 : ascii) : option string :=
  if (nat_of_ascii c1 =? 239) && (nat_of_ascii c2 =? 172) then
    match nat_of_ascii c3 - 128 with
    | 0 => if 128 <=? nat_of_ascii c3 then Some "FF" else None
    | 1 => Some "FI"
    | 2 => Some "FL"
    | 3 => Some "FFI"
    | 4 => Some "FFL"
    | 5 => Some "ST"
    | 6 => Some "ST"
    | _ => None
    end
  else None.

(** [s.toUpperCase()], exact on ASCII text and on the characters above.
    Every other character has an upper case that is not ASCII text and is
    left as it is: the result equals an ASCII word when that of the language
    does. *)
Fixpoint toUpperCase (s : string) : string :=
  match s with
  | EmptyString => EmptyString
  | String c1 s1 =>
      let n := nat_of_ascii c1 in
      let one := String (if (97 <=? n) && (n <=? 122) then ascii_of_nat (n - 32) else c1)
                        (toUpperCase s1) in
      match s1 with
      | EmptyString => one
      | String c2 s2 =>
          match upper2 c1 c2 with
          | Some upper => upper +:+ toUpperCase s2
          | None =>
              match s2 with
              | EmptyString => one
              | String c3 s3 =>
                  match upper3 c1 c2 c3 with
                  | Some upper => upper +:+ toUpperCase s3
                  | None => one
                  end
              end
          end
      end
  end.

(** [null] or a string, in a template literal or as an argument of
    [encodeURIComponent]. *)
Definition ofNullable (o : option string) : string := default "null" o.

End JsString.

(** ** Strategies and their default namespace *)

Record strategy := Strategy {
  strategyId : string;
  strategyName : option string;
  namespaces : option (list string)
}.

Definition placeholder : string := "{memoryStrategyId}".

Definition getSimplifiedNamespace (s : strategy) : string :=
  match namespaces s with
  | None | Some [] => "/default/"
  | Some (ns :: _) =>
      if JsString.includes ns placeholder
      then JsString.replace ns placeholder (strategyId s)
      else ns
  end.


(** ** JSON values

    A parsed response body.  An object is the list of its entries in
    property-iteration order ([Object.entries]); numbers are integers, no
    function below computes with them. *)

Inductive json : Type :=
| JNull
| JBool (b : bool)
| JNum (n : Z)
| JStr (s : string)
| JArr (items : list json)
| JObj (entries : list (string * json)).

Module Json.

Fixpoint assoc (k : string) (entries : list (string * json)) : option json :=
  match entries with
  | [] => None
  | (k', v) :: rest => if String.eqb k k' then Some v else assoc k rest
  end.

(** [v[k]] for a property name [k] that is neither an array index nor a
    member of a built-in prototype: only an object has such a property;
    [None] is [undefined]. *)
Definition get (v : json) (k : string) : option json :=
  match v with
  | JObj entries => assoc k entries
  | _ => None
  end.

Definition truthy (v : json) : bool :=
  match v with
  | JNull => false
  | JBool b => b
  | JNum n => negb (Z.eqb n 0)
  | JStr s => JsString.truthy s
  | JArr _ | JObj _ => true
  end.

(** [o && Object.keys(o).length > 0] on a possibly missing property. *)
Definition hasKeys (o : option json) : bool :=
  match o with
  | Some (JStr s) => JsString.truthy s
  | Some (JArr items) => match items with [] => false | _ => true end
  | Some (JObj entries) => match entries with [] => false | _ => true end
  | _ => false
  end.

(** [a || b] on two possibly missing properties. *)
Definition orElse (a b : option json) : option json :=
  match a with
  | Some v => if truthy v then a else b
  | None => b
  end.

Definition ofZ (n : Z) : string :=
  match n with
  | Z0 => "0"
  | Zpos p => JsString.ofNat (Pos.to_nat p)
  | Zneg p => String "-" (JsString.ofNat (Pos.to_nat p))
  end.

(** The string a value converts to, as in [new Error(value)]. *)
Fixpoint toString (v : json) : string :=
  match v with
  | JNull => "null"
  | JBool true => "true"
  | JBool false => "false"
  | JNum n => ofZ n
  | JStr s => s
  | JArr items =>
      String.concat ","
        (map (fun item => match item with JNull => EmptyString | _ => toString item end) items)
  | JObj _ => "[object Object]"
  end.

End Json.

(** ** Content preview *)

Definition textFields : list string :=
  ["text"; "content"; "message"; "description"; "summary"; "value"].

(** [v && typeof v === 'string'] on the value of a property: the string, when
    there is one and it is not empty. *)
Definition textOf (o : option json) : option string :=
  match o with
  | Some (JStr s) => if JsString.truthy s then Some s else None
  | _ => None
  end.

(** [obj.content && obj.content[field]] *)
Definition nestedField (obj : json) (field : string) : option json :=
  match Json.get obj "content" with
  | Some c => if Json.truthy c then Json.get c field else None
  | None => None
  end.

(** The [for (const field of textFields)] loop of [extractTextForPreview]:
    [Some s] when the loop returns [s], [None] when it runs to its end. *)
Fixpoint firstTextField (obj : json) (fields : list string) : option string :=
  match fields with
  | [] => None
  | field :: rest =>
      match textOf (Json.get obj field) with
      | Some s => Some s
      | None =>
          match textOf (nestedField obj field) with
          | Some s => Some s
          | None => firstTextField obj rest
          end
      end
  end.

(** The inner function [extractStrings]; the list is what it pushes onto
    [strings], in order. *)
Fixpoint extractStrings (obj : json) (depth : nat) {struct obj} : list string :=
  if 3 <? depth then []
  else match obj with
       | JStr s => if 10 <? JsString.length s then [s] else []
       | JArr items => flat_map (fun value => extractStrings value (S depth)) items
       | JObj entries => flat_map (fun '(_, value) => extractStrings value (S depth)) entries
       | _ => []
       end.

Definition extractTextForPreview (obj : json) : string :=
  if negb (Json.truthy obj) then ""
  else match firstTextField obj textFields with
       | Some s => s
       | None =>
           match extractStrings obj 0 with
           | s :: _ => s
           | [] => "Complex data structure"
           end
       end.

(** ** The page: element and text nodes *)

Inductive node : Type :=
| Text (data : string)
| Elem (tag : string) (classes : list string) (attrs : list (string * string))
       (children : list node).

(** The three shapes of selector the application queries with: [.c], [t] and
    [t[a="v"]]. *)
Inductive selector : Type :=
| ByClass (c : string)
| ByTag (t : string)
| ByTagAttr (t a v : string).

Module Dom.

(** A node is addressed by the child indices leading to it from the roots
    of a forest. *)
Definition path : Type := list nat.

Fixpoint attr (a : string) (attrs : list (string * string)) : option string :=
  match attrs with
  | [] => None
  | (a', v) :: rest => if String.eqb a a' then Some v else attr a rest
  end.

Definition matches (sel : selector) (n : node) : bool :=
  match n with
  | Text _ => false
  | Elem tag classes attrs _ =>
      match sel with
      | ByClass c => existsb (String.eqb c) classes
      | ByTag t => String.eqb t tag
      | ByTagAttr t a v =>
          String.eqb t tag &&
          match attr a attrs with Some v' => String.eqb v v' | None => false end
      end
  end.

Fixpoint textContent (n : node) : string :=
  match n with
  | Text data => data
  | Elem _ _ _ children => String.concat EmptyString (map textContent children)
  end.

Section FirstFrom.
Context {A B : Type} (f : A -> option B).

(** The first element of [l] on which [f] succeeds, with its index
    counted from [i]. *)
Fixpoint firstFrom (i : nat) (l : list A) : option (nat * B) :=
  match l with
  | [] => None
  | x :: l' =>
      match f x with
      | Some y => Some (i, y)
      | None => firstFrom (S i) l'
      end
  end.
End FirstFrom.

(** The first node matching [sel] in the subtree of [n], in document
    order; the empty path is [n] itself. *)
Fixpoint find (sel : selector) (n : node) : option path :=
  if matches sel n then Some []
  else match n with
       | Text _ => None
       | Elem _ _ _ children =>
           match firstFrom (find sel) 0 children with
           | Some (i, p) => Some (i :: p)
           | None => None
           end
       end.

(** [querySelector] over a forest: over the roots and their descendants. *)
Definition querySelector (sel : selector) (forest : list node) : option path :=
  match firstFrom (find sel) 0 forest with
  | Some (i, p) => Some (i :: p)
  | None => None
  end.

Definition childrenOf (n : node) : list node :=
  match n with
  | Text _ => []
  | Elem _ _ _ children => children
  end.

(** The siblings among which the last index of a path counts: the forest
    itself for a root, the children of the parent otherwise. *)
Fixpoint siblingsAt (forest : list node) (p : path) : option (list node) :=
  match p with
  | [] => None
  | [_] => Some forest
  | i :: p' =>
      match forest !! i with
      | Some n => siblingsAt (childrenOf n) p'
      | None => None
      end
  end.

Definition nodeAt (forest : list node) (p : path) : option node :=
  match siblingsAt forest p, last p with
  | Some siblings, Some i => siblings !! i
  | _, _ => None
  end.

(** The non-empty prefixes of a path, the longest first: the node and its
    ancestors, from the inside out. *)
Fixpoint ancestorsOrSelf (p : path) : list path :=
  match p with
  | [] => []
  | i :: p' =>
      map (cons i) (ancestorsOrSelf p') ++ [[i]]
  end.

(** [element.closest(sel)], among the ancestors that lie in the forest. *)
Definition closest (sel : selector) (forest : list node) (p : path) : option path :=
  List.find
    (fun q => match nodeAt forest q with Some n => matches sel n | None => false end)
    (ancestorsOrSelf p).

Definition isElement (n : node) : bool :=
  match n with Elem _ _ _ _ => true | Text _ => false end.

(** The index of the last element among the first [i] nodes of [l]. *)
Fixpoint lastElementBefore (i : nat) (l : list node) : option nat :=
  match i with
  | 0 => None
  | S j =>
      match l !! j with
      | Some n => if isElement n then Some j else lastElementBefore j l
      | None => lastElementBefore j l
      end
  end.

Definition previousElementSibling (forest : list node) (p : path) : option path :=
  match siblingsAt forest p, last p with
  | Some siblings, Some i =>
      match lastElementBefore i siblings with
      | Some j => Some (removelast p ++ [j])
      | None => None
      end
  | _, _ => None
  end.

(** [element.querySelector(sel)]: among the descendants of the element at
    [p]. *)
Definition querySelectorIn (sel : selector) (forest : list node) (p : path)
  : option path :=
  match nodeAt forest p with
  | Some n =>
      match querySelector sel (childrenOf n) with
      | Some q => Some (p ++ q)
      | None => None
      end
  | None => None
  end.

(** The forest with the node at [p] rewritten by [f]; [f] answers [None]
    to take the node out. *)
Fixpoint rewriteAt (f : node -> option node) (forest : list node) (p : path)
  : list node :=
  match p with
  | [] => forest
  | [i] =>
      match forest !! i with
      | Some n =>
          match f n with
          | Some n' => <[i := n']> forest
          | None => take i forest ++ drop (S i) forest
          end
      | None => forest
      end
  | i :: p' =>
      match forest !! i with
      | Some (Elem tag classes attrs children) =>
          <[i := Elem tag classes attrs (rewriteAt f children p')]> forest
      | _ => forest
      end
  end.

(** [element.remove()] *)
Definition remove (forest : list node) (p : path) : list node :=
  rewriteAt (fun _ => None) forest p.

(** [element.innerHTML = ...] and [element.textContent = ...] replace the
    children of the element. *)
Definition setChildren (children : list node) (forest : list node) (p : path)
  : list node :=
  rewriteAt
    (fun n => match n with
              | Elem tag classes attrs _ => Some (Elem tag classes attrs children)
              | Text _ => Some n
              end)
    forest p.

End Dom.

(** ** What the service returns *)

Module Event.
Record t : Type := Make {
  eventId : option string;
  eventType : option string;
  eventTimestamp : option json;
  createdAt : option json;
  payload : option json;
  data : option json;
  metadata : option json
}.
End Event.

Module MemoryRecord.
Record t : Type := Make {
  recordId : option string;
  memoryRecordId : option string;
  memoryStrategyId : option string;
  createdAt : option json;
  content : option json;
  metadata : option json
}.
End MemoryRecord.

Module Memory.
Record t : Type := Make {
  id : string;
  name : option string;
  status : option string;
  createdAt : option json;
  updatedAt : option json;
  description : option string;
  arn : option string;
  encryptionKeyArn : option string;
  memoryExecutionRoleArn : option string;
  strategies : option (list strategy)
}.
End Memory.

(** The body of [{events: [...]}], of [{records: [...]}] and of the answer
    to an added event. *)
Record eventsResult := EventsResult { resultEvents : option (list Event.t) }.
Record recordsResult := RecordsResult { resultRecords : option (list MemoryRecord.t) }.
Record addEventResult := AddEventResult {
  resultMessage : option string;
  resultEventId : option string
}.

(** The body of an error response, read through its [detail] property. *)
Record errorBody := ErrorBody { detail : option json }.

(** How [await fetch(...)] and the [await response.json()] after it end, as
    far as a handler reads the response: the fetch rejects; or the response
    is not [ok], with its status line and with its body parsed or not
    ([inl] is the message of the error [response.json()] rejects with); or
    the response is [ok], with its body parsed or not. *)
Inductive fetchOutcome (B : Type) : Type :=
| NetworkError (message : string)
| HttpError (status : nat) (statusText : string) (body : string + errorBody)
| HttpOk (body : string + B).
Arguments NetworkError {B} message.
Arguments HttpError {B} status statusText body.
Arguments HttpOk {B} body.

Record request := Request {
  method : string;
  url : string;
  requestBody : option json
}.

(** ** State of the page and of the module *)

(** [{...event, sessionId, actorId}] and [{...record, namespace}] *)
Record cachedEvent := CachedEvent {
  cachedEventOf : Event.t;
  sessionId : option string;
  actorId : option string
}.

Record cachedRecord := CachedRecord {
  cachedRecordOf : MemoryRecord.t;
  namespace : string
}.

(** The properties of the two kinds of cached object, as a lookup that
    goes through such an object finds them: those of the event or of the
    record that are present, and the ones added to it. *)
Definition present (name : string) (value : option json) : list (string * json) :=
  match value with
  | Some x => [(name, x)]
  | None => []
  end.

Definition nullable (value : option string) : json :=
  match value with
  | Some text => JStr text
  | None => JNull
  end.

Definition eventProperties (cached : cachedEvent) : list (string * json) :=
  let e := cachedEventOf cached in
  present "eventId" (JStr <$> Event.eventId e)
  ++ present "eventType" (JStr <$> Event.eventType e)
  ++ present "eventTimestamp" (Event.eventTimestamp e)
  ++ present "createdAt" (Event.createdAt e)
  ++ present "payload" (Event.payload e)
  ++ present "data" (Event.data e)
  ++ present "metadata" (Event.metadata e)
  ++ [("sessionId", nullable (sessionId cached)); ("actorId", nullable (actorId cached))].

Definition recordProperties (cached : cachedRecord) : list (string * json) :=
  let r := cachedRecordOf cached in
  present "recordId" (JStr <$> MemoryRecord.recordId r)
  ++ present "memoryRecordId" (JStr <$> MemoryRecord.memoryRecordId r)
  ++ present "memoryStrategyId" (JStr <$> MemoryRecord.memoryStrategyId r)
  ++ present "createdAt" (MemoryRecord.createdAt r)
  ++ present "content" (MemoryRecord.content r)
  ++ present "metadata" (MemoryRecord.metadata r)
  ++ [("namespace", JStr (namespace cached))].

(** ** A plain object used as a dictionary

    [currentEventsData] and [currentRecordsData] are objects made by [{}].
    The finite map holds the own properties, and at the key [__proto__] the
    object that an assignment to that key has made the prototype: such an
    assignment adds no property.  A lookup that finds no own property goes
    on through that object, when there is one, to the members of
    [Object.prototype]. *)
Module Cache.

Definition objectPrototypeNames : list string :=
  ["constructor"; "hasOwnProperty"; "isPrototypeOf"; "propertyIsEnumerable";
   "toLocaleString"; "toString"; "valueOf"; "__proto__";
   "__defineGetter__"; "__defineSetter__"; "__lookupGetter__"; "__lookupSetter__"].

(** What [cache[key]] evaluates to: an object stored in the cache, a
    property of the object installed as prototype, a member of
    [Object.prototype] ([Object.prototype] itself at [__proto__]), or
    [undefined]. *)
Inductive property (V : Type) : Type :=
| Entry (v : V)
| Value (x : json)
| Builtin (name : string)
| Undefined.
Arguments Entry {V} v.
Arguments Value {V} x.
Arguments Builtin {V} name.
Arguments Undefined {V}.

(** A key that names no member of [Object.prototype]. *)
Definition ordinary (key : string) : bool :=
  negb (existsb (String.eqb key) objectPrototypeNames).

Definition inherited {V : Type} (key : string) : property V :=
  if ordinary key then Undefined else Builtin key.

Definition get {V : Type} (properties : V -> list (string * json))
    (cache : gmap string V) (key : string) : property V :=
  match cache !! key with
  | Some v => Entry v
  | None =>
      match cache !! "__proto__" with
      | Some prototype =>
          match Json.assoc key (properties prototype) with
          | Some x => Value x
          | None => inherited key
          end
      | None => inherited key
      end
  end.

(** [delete cache[key]]: [__proto__] is no own property. *)
Definition remove {V : Type} (key : string) (cache : gmap string V) : gmap string V :=
  if String.eqb key "__proto__" then cache else delete key cache.

(** [Object.keys(cache).length] *)
Definition count {V : Type} (cache : gmap string V) : nat :=
  size (delete "__proto__" cache).

(** [x[name]] as a template literal or [encodeURIComponent] writes it, for
    [x] a value of the response. *)
Definition memberText (name : string) (x : json) : string :=
  match Json.get x name with
  | Some y => Json.toString y
  | None => "undefined"
  end.

End Cache.

(** What [jsonEditor.set] is given: a cached object or, when the lookup
    went through the prototype, what it found there. *)
Inductive shown : Type :=
| ShownEvent (e : cachedEvent)
| ShownRecord (r : cachedRecord)
| ShownValue (x : json)
| ShownBuiltin (name : string).

(** What the click handler installed on the confirm button will run.  An
    argument that is [undefined] is held as the text [undefined], which is
    what the template of the address makes of it. *)
Inductive pendingDelete : Type :=
| DeleteEvent (eventId : string) (sessionId actorId : option string)
| DeleteRecord (recordId : string) (namespace : string).

(** One strategy tab: its label, the strategy its body describes, the two
    forms with their fields, and the two results containers
    [#strategy-i-memory-records-results] and [#strategy-i-retrieve-results],
    in this order in the document. *)
Record pane := Pane {
  tabLabel : string;
  paneStrategy : strategy;
  recordsFormHidden : bool;
  retrieveFormHidden : bool;
  namespaceInput : string;
  searchQueryInput : string;
  retrieveNamespaceInput : string;
  recordsResults : list node;
  retrieveResults : list node
}.

#[projections(primitive)]
Record state : Type := State {
  (** The globals of the module. *)
  currentMemory : option Memory.t;
  currentSessionId : option string;
  currentActorId : option string;
  currentEventsData : gmap string cachedEvent;
  currentRecordsData : gmap string cachedRecord;
  (** What [jsonEditor.set] was last given, and the callbacks of
      [initializeStrategyNamespaces] that [setTimeout] holds. *)
  jsonEditor : option shown;
  namespaceTimers : list (strategy * nat);
  (** The page: the ids of the elements that carry the class [d-none]; the
      text and the class name of the elements written through
      [textContent], [innerHTML] or [className]; the values of the form
      fields outside the strategy tabs; the options of [#memory-select]
      after its first one, and its value; the contents of
      [#global-events-results] and [#add-event-results]; and
      [#strategies-tabs], which shows a notice or the tabs. *)
  hidden : gset string;
  texts : gmap string string;
  classNames : gmap string string;
  inputs : gmap string string;
  memoryOptions : list Memory.t;
  memorySelectValue : string;
  globalEventsResults : list node;
  addEventResults : list node;
  noStrategiesNotice : bool;
  panes : list pane;
  (** The two modals and the click handler of [#delete-confirm-btn]. *)
  jsonModalShown : bool;
  deleteModalShown : bool;
  deleteConfirmHandler : option pendingDelete;
  (** What left the page: the requests issued, the blocking alerts, the
      toast notifications, the lines of [console.error]. *)
  requests : list request;
  alerts : list string;
  toasts : list string;
  consoleErrors : list string
}.

Definition setCurrentMemory (z : option Memory.t) (st : state) : state :=
  let 'State a b c d e f g h i j k l m n o p q r s t u v w x := st in
  State z b c d e f g h i j k l m n o p q r s t u v w x.

Definition setCurrentSessionId (z : option string) (st : state) : state :=
  let 'State a b c d e f g h i j k l m n o p q r s t u v w x := st in
  State a z c d e f g h i j k l m n o p q r s t u v w x.

Definition setCurrentActorId (z : option string) (st : state) : state :=
  let 'State a b c d e f g h i j k l m n o p q r s t u v w x := st in
  State a b z d e f g h i j k l m n o p q r s t u v w x.

Definition setCurrentEventsData (z : gmap string cachedEvent) (st : state) : state :=
  let 'State a b c d e f g h i j k l m n o p q r s t u v w x := st in
  State a b c z e f g h i j k l m n o p q r s t u v w x.

Definition setCurrentRecordsData (z : gmap string cachedRecord) (st : state) : state :=
  let 'State a b c d e f g h i j k l m n o p q r s t u v w x := st in
  State a b c d z f g h i j k l m n o p q r s t u v w x.

Definition setJsonEditor (z : option shown) (st : state) : state :=
  let 'State a b c d e f g h i j k l m n o p q r s t u v w x := st in
  State a b c d e z g h i j k l m n o p q r s t u v w x.

Definition setNamespaceTimers (z : list (strategy * nat)) (st : state) : state :=
  let 'State a b c d e f g h i j k l m n o p q r s t u v w x := st in
  State a b c d e f z h i j k l m n o p q r s t u v w x.

Definition setHidden (z : gset string) (st : state) : state :=
  let 'State a b c d e f g h i j k l m n o p q r s t u v w x := st in
  State a b c d e f g z i j k l m n o p q r s t u v w x.

Definition setTexts (z : gmap string string) (st : state) : state :=
  let 'State a b c d e f g h i j k l m n o p q r s t u v w x := st in
  State a b c d e f g h z j k l m n o p q r s t u v w x.

Definition setClassNames (z : gmap string string) (st : state) : state :=
  let 'State a b c d e f g h i j k l m n o p q r s t u v w x := st in
  State a b c d e f g h i z k l m n o p q r s t u v w x.

Definition setInputs (z : gmap string string) (st : state) : state :=
  let 'State a b c d e f g h i j k l m n o p q r s t u v w x := st in
  State a b c d e f g h i j z l m n o p q r s t u v w x.

Definition setMemoryOptions (z : list Memory.t) (st : state) : state :=
  let 'State a b c d e f g h i j k l m n o p q r s t u v w x := st in
  State a b c d e f g h i j k z m n o p q r s t u v w x.

Definition setMemorySelectValue (z : string) (st : state) : state :=
  let 'State a b c d e f g h i j k l m n o p q r s t u v w x := st in
  State a b c d e f g h i j k l z n o p q r s t u v w x.

Definition setGlobalEventsResults (z : list node) (st : state) : state :=
  let 'State a b c d e f g h i j k l m n o p q r s t u v w x := st in
  State a b c d e f g h i j k l m z o p q r s t u v w x.

Definition setAddEventResults (z : list node) (st : state) : state :=
  let 'State a b c d e f g h i j k l m n o p q r s t u v w x := st in
  State a b c d e f g h i j k l m n z p q r s t u v w x.

Definition setNoStrategiesNotice (z : bool) (st : state) : state :=
  let 'State a b c d e f g h i j k l m n o p q r s t u v w x := st in
  State a b c d e f g h i j k l m n o z q r s t u v w x.

Definition setPanes (z : list pane) (st : state) : state :=
  let 'State a b c d e f g h i j k l m n o p q r s t u v w x := st in
  State a b c d e f g h i j k l m n o p z r s t u v w x.

Definition setJsonModalShown (z : bool) (st : state) : state :=
  let 'State a b c d e f g h i j k l m n o p q r s t u v w x := st in
  State a b c d e f g h i j k l m n o p q z s t u v w x.

Definition setDeleteModalShown (z : bool) (st : state) : state :=
  let 'State a b c d e f g h i j k l m n o p q r s t u v w x := st in
  State a b c d e f g h i j k l m n o p q r z t u v w x.

Definition setDeleteConfirmHandler (z : option pendingDelete) (st : state) : state :=
  let 'State a b c d e f g h i j k l m n o p q r s t u v w x := st in
  State a b c d e f g h i j k l m n o p q r s z u v w x.

Definition setRequests (z : list request) (st : state) : state :=
  let 'State a b c d e f g h i j k l m n o p q r s t u v w x := st in
  State a b c d e f g h i j k l m n o p q r s t z v w x.

Definition setAlerts (z : list string) (st : state) : state :=
  let 'State a b c d e f g h i j k l m n o p q r s t u v w x := st in
  State a b c d e f g h i j k l m n o p q r s t u z w x.

Definition setToasts (z : list string) (st : state) : state :=
  let 'State a b c d e f g h i j k l m n o p q r s t u v w x := st in
  State a b c d e f g h i j k l m n o p q r s t u v z x.

Definition setConsoleErrors (z : list string) (st : state) : state :=
  let 'State a b c d e f g h i j k l m n o p q r s t u v w x := st in
  State a b c d e f g h i j k l m n o p q r s t u v w z.

(** ** The content preview as the specification words it

    Step 2 searches, in priority order, for a string value at the six keys,
    first at the top level and then one level under [content]; step 3 scans
    the object to depth 3 for the first string longer than 10 characters, in
    property-iteration order; step 4 is the marker.  What counts as a string
    value at a key is a parameter: the two readings are given below. *)

Module Spec.

Fixpoint firstSome {A B : Type} (f : A -> option B) (l : list A) : option B :=
  match l with
  | [] => None
  | x :: l' =>
      match f x with
      | Some y => Some y
      | None => firstSome f l'
      end
  end.

(** Any string is a string value. *)
Definition stringValue (o : option json) : option string :=
  match o with
  | Some (JStr s) => Some s
  | _ => None
  end.

(** Only a string that is not empty is one. *)
Definition nonEmptyStringValue (o : option json) : option string :=
  match o with
  | Some (JStr (String c s)) => Some (String c s)
  | _ => None
  end.

(** The first string, in iteration order, that is longer than 10
    characters, a character being what [length] counts. *)
Fixpoint firstLongString (limit : nat) (v : json) {struct limit} : option string :=
  match v with
  | JStr s => if 10 <? JsString.length s then Some s else None
  | JArr items =>
      match limit with
      | 0 => None
      | S limit' => firstSome (firstLongString limit') items
      end
  | JObj entries =>
      match limit with
      | 0 => None
      | S limit' => firstSome (fun entry => firstLongString limit' (snd entry)) entries
      end
  | _ => None
  end.

(** The keys, in the priority order in which the specification lists
    them. *)
Definition keys : list string :=
  ["text"; "content"; "message"; "description"; "summary"; "value"].

Section Preview.
Variable found : option json -> option string.

Definition atTopLevel (obj : json) : option string :=
  firstSome (fun key => found (Json.get obj key)) keys.

Definition underContent (obj : json) : option string :=
  firstSome (fun key => found (c ← Json.get obj "content"; Json.get c key)) keys.

Definition preview (obj : json) : string :=
  match atTopLevel obj with
  | Some s => s
  | None =>
      match underContent obj with
      | Some s => s
      | None =>
          match firstLongString 3 obj with
          | Some s => s
          | None => "Complex data structure"
          end
      end
  end.
End Preview.

End Spec.

(** ** Rendering *)

Section Browser.

(** [new Date(value).toLocaleString()] for a string, and
    [new Date(value * 1000).toLocaleString()] for a number: the text
    depends on the locale and on the time zone of the browser.  It is the
    text of a date or [Invalid Date], in which markup finds nothing to
    read. *)
Variable toLocaleString : json -> string.

(** The message of the [TypeError] that [strategy.namespaces.map] throws
    when [namespaces] is missing: its wording is the engine's. *)
Variable namespacesTypeError : string.

Definition showElement (id : string) (st : state) : state :=
  setHidden (hidden st ∖ {[id]}) st.

Definition hideElement (id : string) (st : state) : state :=
  setHidden ({[id]} ∪ hidden st) st.

Definition setText (id text : string) (st : state) : state :=
  setTexts (<[id := text]> (texts st)) st.

Definition setClassName (id className : string) (st : state) : state :=
  setClassNames (<[id := className]> (classNames st)) st.

(** The value of a form field outside the strategy tabs. *)
Definition inputValue (id : string) (st : state) : string :=
  default EmptyString (inputs st !! id).

Definition setInputValue (id value : string) (st : state) : state :=
  setInputs (<[id := value]> (inputs st)) st.

Definition consoleError (line : string) (st : state) : state :=
  setConsoleErrors (consoleErrors st ++ [line]) st.

Definition issue (r : request) (st : state) : state :=
  setRequests (requests st ++ [r]) st.

Definition alert (message : string) (st : state) : state :=
  setAlerts (alerts st ++ [message]) st.

(** [showCopySuccess(message)] without a button: a toast. *)
Definition showCopySuccess (message : string) (st : state) : state :=
  setToasts (toasts st ++ [message]) st.

Definition getStatusBadgeClass (status : option string) : string :=
  match status with
  | None => "bg-secondary"
  | Some s =>
      let u := JsString.toUpperCase s in
      if String.eqb u "AVAILABLE" || String.eqb u "ACTIVE" then "bg-success"
      else if String.eqb u "CREATING" || String.eqb u "UPDATING" then "bg-warning"
      else if String.eqb u "DELETING" || String.eqb u "FAILED" then "bg-danger"
      else "bg-secondary"
  end.

Definition formatDate (dateValue : option json) : string :=
  match dateValue with
  | None => "N/A"
  | Some v =>
      if negb (Json.truthy v) then "N/A"
      else match v with
           | JNum _ | JStr _ => toLocaleString v
           | _ => "Invalid Date"
           end
  end.

(** [${escapeHtml(text)}] in the markup of an element: the text comes back
    from the parser as one text node, or as none when nothing is left of
    it. *)
Definition escapedText (text : string) : list node :=
  match JsString.parsedText text with
  | EmptyString => []
  | parsed => [Text parsed]
  end.

(** The object [fullContent] that [generateContentPreview] builds. *)
Definition fullContent (content metadata : option json) : json :=
  JObj ((match content with
         | Some c => if Json.hasKeys content then [("content", c)] else []
         | None => []
         end)
        ++
        (match metadata with
         | Some m => if Json.hasKeys metadata then [("metadata", m)] else []
         | None => []
         end)).

Definition generateContentPreview (content metadata : option json) : node :=
  if negb (Json.hasKeys content) && negb (Json.hasKeys metadata)
  then Elem "span" ["badge"; "bg-secondary"] [] [Text "No Content"]
  else
    let previewText := extractTextForPreview (fullContent content metadata) in
    if JsString.truthy previewText
    then
      let truncated :=
        if 100 <? JsString.length previewText
        then JsString.substring 100 previewText +:+ "..."
        else previewText in
      Elem "div" ["small"; "text-muted"]
        [("style", "white-space: nowrap; overflow: hidden; text-overflow: ellipsis;")]
        (escapedText truncated)
    else
      Elem "div" ["text-muted"; "small"] []
        [Elem "em" [] [] [Text "No preview available"]].

(** The three banners interpolate their message as it is: the trees are
    what the parser reads when the message is [JsString.plainText]. *)
Definition showLoading (message : string) : list node :=
  [Elem "div" ["text-center"] []
     [Elem "div" ["spinner-border"] [("role", "status")]
        [Elem "span" ["visually-hidden"] [] [Text "Loading..."]];
      Elem "p" ["mt-2"] [] [Text message]]].

Definition showError (message : string) : list node :=
  [Elem "div" ["alert"; "alert-danger"] []
     [Elem "i" ["bi"; "bi-exclamation-triangle"; "me-2"] [] [];
      Text message]].

Definition showWarning (message : string) : list node :=
  [Elem "div" ["alert"; "alert-warning"] []
     [Elem "i" ["bi"; "bi-exclamation-triangle"; "me-2"] [] [];
      Text message]].

(** *** The results containers *)

Inductive container : Type :=
| GlobalEventsResults
| AddEventResults
| MemoryRecordsResults (strategyIndex : nat)
| RetrieveResults (strategyIndex : nat).

(** The children of a container; [None] when the page has no such
    element. *)
Definition innerHTML (c : container) (st : state) : option (list node) :=
  match c with
  | GlobalEventsResults => Some (globalEventsResults st)
  | AddEventResults => Some (addEventResults st)
  | MemoryRecordsResults i => recordsResults <$> panes st !! i
  | RetrieveResults i => retrieveResults <$> panes st !! i
  end.

Definition setRecordsResults (html : list node) (p : pane) : pane :=
  Pane (tabLabel p) (paneStrategy p) (recordsFormHidden p) (retrieveFormHidden p)
       (namespaceInput p) (searchQueryInput p) (retrieveNamespaceInput p)
       html (retrieveResults p).

Definition setRetrieveResults (html : list node) (p : pane) : pane :=
  Pane (tabLabel p) (paneStrategy p) (recordsFormHidden p) (retrieveFormHidden p)
       (namespaceInput p) (searchQueryInput p) (retrieveNamespaceInput p)
       (recordsResults p) html.

(** [container.innerHTML = html], on a container that exists. *)
Definition setInnerHTML (c : container) (html : list node) (st : state) : state :=
  match c with
  | GlobalEventsResults => setGlobalEventsResults html st
  | AddEventResults => setAddEventResults html st
  | MemoryRecordsResults i =>
      setPanes (alter (setRecordsResults html) i (panes st)) st
  | RetrieveResults i =>
      setPanes (alter (setRetrieveResults html) i (panes st)) st
  end.

(** *** Events *)

Definition icon (classes : list string) : node := Elem "i" classes [] [].

Definition headerRow (titles : list string) : node :=
  Elem "thead" [] []
    [Elem "tr" [] [] (map (fun t => Elem "th" [] [] [Text t]) titles)].

(** The two buttons of a row.  [event.eventId] in a template literal reads
    [undefined] when the property is missing, as it does as a key of
    [currentEventsData].  The id is written between double quotes as it is:
    the attribute that the parser reads is the id when the id is
    [JsString.plain], and [JsString.readAttribute] tells what it reads of an
    id with a double quote in it. *)
Definition actionButtons (itemType itemId deleteTitle : string) : list node :=
  [Elem "button" ["btn"; "btn-outline-primary"; "btn-sm"; "view-json-btn"; "me-1"]
     [("data-item-type", itemType); ("data-item-id", itemId); ("title", "View details")]
     [icon ["bi"; "bi-eye"]];
   Elem "button" ["btn"; "btn-outline-danger"; "btn-sm"; "delete-btn"]
     [("data-item-type", itemType); ("data-item-id", itemId); ("title", deleteTitle)]
     [icon ["bi"; "bi-trash"]]].

Definition eventKey (e : Event.t) : string := JsString.ofProperty (Event.eventId e).

Definition eventRow (e : Event.t) : node :=
  Elem "tr" [] [("data-event-id", eventKey e)]
    [Elem "td" [] [] [Elem "code" [] [] [Text (eventKey e)]];
     Elem "td" [] []
       [Text (default "N/A" (JsString.orElse (Event.eventType e) (Some "N/A")))];
     Elem "td" [] []
       [Text (formatDate (Json.orElse (Event.eventTimestamp e) (Event.createdAt e)))];
     Elem "td" [] []
       [generateContentPreview (Json.orElse (Event.payload e) (Event.data e))
                               (Event.metadata e)];
     Elem "td" [] [] (actionButtons "event" (eventKey e) "Delete event")].

Definition eventsTable (events : list Event.t) : list node :=
  [Elem "div" ["table-responsive"] []
     [Elem "div" ["d-flex"; "justify-content-between"; "align-items-center"; "mb-2"] []
        [Elem "h6" ["mb-0"] [] [Text "Events"];
         Elem "span" ["badge"; "bg-secondary"] []
           [Text (JsString.ofNat (length events) +:+ " event(s)")]];
      Elem "table" ["table"; "table-striped"] []
        [headerRow ["Event ID"; "Event Type"; "Created"; "Data"; "Actions"];
         Elem "tbody" [] [] (map eventRow events)]]].

Definition infoAlert (content : list node) : list node :=
  [Elem "div" ["alert"; "alert-info"] []
     (icon ["bi"; "bi-info-circle"; "me-2"] :: content)].

(** The [forEach] that fills [currentEventsData]. *)
Definition storeEvents (sessionId actorId : option string) (events : list Event.t)
  : gmap string cachedEvent :=
  foldl (fun cache e => <[eventKey e := CachedEvent e sessionId actorId]> cache)
        ∅ events.

Definition displayEvents (c : container) (events : option (list Event.t))
    (sessionId actorId : option string) (st : state) : state :=
  match events with
  | None | Some [] => setInnerHTML c (infoAlert [Text "No events found."]) st
  | Some events =>
      setInnerHTML c (eventsTable events)
        (setCurrentEventsData (storeEvents sessionId actorId events) st)
  end.

(** *** Records *)

(** [record.recordId || record.memoryRecordId] *)
Definition recordKey (r : MemoryRecord.t) : option string :=
  JsString.orElse (MemoryRecord.recordId r) (MemoryRecord.memoryRecordId r).


(** [record.recordId || record.memoryRecordId || 'N/A'] *)
Definition recordRowId (r : MemoryRecord.t) : string :=
  default "N/A" (JsString.orElse (recordKey r) (Some "N/A")).

Definition recordRow (r : MemoryRecord.t) : node :=
  Elem "tr" [] [("data-record-id", recordRowId r)]
    [Elem "td" [] [] [Elem "code" ["small"] [] [Text (recordRowId r)]];
     Elem "td" [] []
       [Elem "small" [] []
          [Text (default "N/A"
                   (JsString.orElse (MemoryRecord.memoryStrategyId r) (Some "N/A")))]];
     Elem "td" [] []
       [Elem "small" [] [] [Text (formatDate (MemoryRecord.createdAt r))]];
     Elem "td" [] [("style", "max-width: 300px;")]
       [generateContentPreview (MemoryRecord.content r) (MemoryRecord.metadata r)];
     Elem "td" [] [] (actionButtons "record" (recordRowId r) "Delete record")].

(** The children of the [small] element under the title of a record
    table; a [code] element without text has no child. *)
Definition recordCount (namespace : string) (count : nat) : list node :=
  [Text "Namespace: ";
   Elem "code" [] []
     (match namespace with
      | EmptyString => []
      | _ => [Text namespace]
      end);
   Text (" • Found " +:+ JsString.ofNat count +:+ " record(s)")].

Definition recordsTable (records : list MemoryRecord.t) (namespace title : string)
  : list node :=
  [Elem "div" ["mb-3"] []
     [Elem "h6" [] [] [Text title];
      Elem "small" ["text-muted"] [] (recordCount namespace (length records))];
   Elem "div" ["table-responsive"] []
     [Elem "table" ["table"; "table-striped"; "table-sm"] []
        [headerRow ["Record ID"; "Strategy"; "Created"; "Content"; "Actions"];
         Elem "tbody" [] [] (map recordRow records)]]].

(** The fields that a row interpolates as they are, without escaping: the
    trees above are what the parser makes of the markup when these are
    plain. *)
Definition plainEvent (e : Event.t) : bool :=
  JsString.plain (eventKey e)
  && JsString.plainText (default "N/A" (JsString.orElse (Event.eventType e) (Some "N/A"))).


(** The [forEach] that fills [currentRecordsData]: a record without an id
    is passed over. *)
Definition storeRecords (namespace : string) (records : list MemoryRecord.t)
  : gmap string cachedRecord :=
  foldl (fun cache r =>
           match recordKey r with
           | Some recordId =>
               if JsString.truthy recordId
               then <[recordId := CachedRecord r namespace]> cache
               else cache
           | None => cache
           end)
        ∅ records.

Definition displayRecords (c : container) (records : option (list MemoryRecord.t))
    (namespace title : string) (st : state) : state :=
  match records with
  | None | Some [] =>
      setInnerHTML c
        (infoAlert [Text "No records found in namespace: ";
                    Elem "code" [] [] [Text namespace]])
        st
  | Some records =>
      setInnerHTML c (recordsTable records namespace title)
        (setCurrentRecordsData (storeRecords namespace records) st)
  end.

(** *** The JSON modal *)

(** [jsonEditor] is created when the application starts, before any click
    is handled. *)
Definition showJsonModal (title : string) (data : shown) (st : state) : state :=
  setJsonModalShown true (setJsonEditor (Some data) (setText "json-field-name" title st)).

Definition showEventJson (eventId : string) (st : state) : state :=
  let title := "Event: " +:+ eventId in
  match Cache.get eventProperties (currentEventsData st) eventId with
  | Cache.Entry event => showJsonModal title (ShownEvent event) st
  | Cache.Value x =>
      if Json.truthy x then showJsonModal title (ShownValue x) st
      else consoleError "Event not found:" st
  | Cache.Builtin name => showJsonModal title (ShownBuiltin name) st
  | Cache.Undefined => consoleError "Event not found:" st
  end.

Definition showRecordJson (recordId : string) (st : state) : state :=
  let title := "Memory Record: " +:+ recordId in
  match Cache.get recordProperties (currentRecordsData st) recordId with
  | Cache.Entry record => showJsonModal title (ShownRecord record) st
  | Cache.Value x =>
      if Json.truthy x then showJsonModal title (ShownValue x) st
      else consoleError "Record not found:" st
  | Cache.Builtin name => showJsonModal title (ShownBuiltin name) st
  | Cache.Undefined => consoleError "Record not found:" st
  end.

(** A click on a [.view-json-btn] button whose [data-item-type] and
    [data-item-id] attributes are as given. *)
Definition handleJsonViewClick (itemType itemId : option string) (st : state) : state :=
  match itemType with
  | Some "event" => showEventJson (JsString.ofProperty itemId) st
  | Some "record" => showRecordJson (JsString.ofProperty itemId) st
  | _ => consoleError "Unknown item type:" st
  end.

(** *** Deleting *)

Definition quoted (s : string) : string :=
  String (ascii_of_nat 34) s +:+ String (ascii_of_nat 34) EmptyString.

(** The modal of [confirmDeleteEvent], with the handler of its button. *)
Definition askDeleteEvent (eventId : string) (session actor : option string) (st : state)
  : state :=
  setDeleteModalShown true
    (setDeleteConfirmHandler
       (Some (DeleteEvent eventId session actor))
       (setText "delete-confirm-message"
          ("Are you sure you want to delete event " +:+ quoted eventId +:+ "?") st)).

Definition confirmDeleteEvent (eventId : string) (st : state) : state :=
  match Cache.get eventProperties (currentEventsData st) eventId with
  | Cache.Entry event => askDeleteEvent eventId (sessionId event) (actorId event) st
  | Cache.Value x =>
      if Json.truthy x
      then askDeleteEvent eventId (Some (Cache.memberText "sessionId" x))
                          (Some (Cache.memberText "actorId" x)) st
      else consoleError "Event not found:" st
  | Cache.Builtin _ => askDeleteEvent eventId (Some "undefined") (Some "undefined") st
  | Cache.Undefined => consoleError "Event not found:" st
  end.

Definition askDeleteRecord (recordId scope : string) (st : state) : state :=
  setDeleteModalShown true
    (setDeleteConfirmHandler
       (Some (DeleteRecord recordId scope))
       (setText "delete-confirm-message"
          ("Are you sure you want to delete memory record " +:+ quoted recordId +:+ "?")
          st)).

Definition confirmDeleteRecord (recordId : string) (st : state) : state :=
  match Cache.get recordProperties (currentRecordsData st) recordId with
  | Cache.Entry record => askDeleteRecord recordId (namespace record) st
  | Cache.Value x =>
      if Json.truthy x then askDeleteRecord recordId (Cache.memberText "namespace" x) st
      else consoleError "Record not found:" st
  | Cache.Builtin _ => askDeleteRecord recordId "undefined" st
  | Cache.Undefined => consoleError "Record not found:" st
  end.

(** A click on a [.delete-btn] button. *)
Definition handleDeleteClick (itemType itemId : option string) (st : state) : state :=
  match itemType with
  | Some "event" => confirmDeleteEvent (JsString.ofProperty itemId) st
  | Some "record" => confirmDeleteRecord (JsString.ofProperty itemId) st
  | _ => consoleError "Unknown item type:" st
  end.

Definition httpStatusLine (status : nat) (statusText : string) : string :=
  "HTTP " +:+ JsString.ofNat status +:+ ": " +:+ statusText.

Definition deleteEventUrl (memoryId eventId : string) (sessionId actorId : option string)
  : string :=
  "/api/memories/" +:+ JsString.encodeURIComponent memoryId
  +:+ "/events/" +:+ JsString.encodeURIComponent eventId
  +:+ "?session_id=" +:+ JsString.encodeURIComponent (JsString.ofNullable sessionId)
  +:+ "&actor_id=" +:+ JsString.encodeURIComponent (JsString.ofNullable actorId).

Definition deleteRecordUrl (memoryId recordId namespace : string) : string :=
  "/api/memories/" +:+ JsString.encodeURIComponent memoryId
  +:+ "/records/" +:+ JsString.encodeURIComponent recordId
  +:+ "?namespace=" +:+ JsString.encodeURIComponent namespace.

(** What the [try] block of a handler that reads only the body of an [ok]
    response ends with: the parsed body, or the message of the error
    thrown. *)
Definition okBody {B : Type} (outcome : fetchOutcome B) : string + B :=
  match outcome with
  | NetworkError message => inl message
  | HttpError status statusText _ => inl (httpStatusLine status statusText)
  | HttpOk body => body
  end.

(** Rows that carry [data-event-id] are written into
    [#global-events-results] only, so [document.querySelector] for such a
    row searches there.  The selector is a template around the id: for an
    id that is [JsString.plain] it is the selector of the rows whose
    attribute is the id, which is what is searched here; another id can
    make it a selector of other rows, or none at all, and that is outside
    this definition. *)
Definition removeEventRow (eventId : string) (st : state) : state :=
  let forest := globalEventsResults st in
  match Dom.querySelector (ByTagAttr "tr" "data-event-id" eventId) forest with
  | None => st
  | Some row =>
      let badge :=
        tableContainer ← Dom.closest (ByClass "table-responsive") forest row;
        header ← Dom.previousElementSibling forest tableContainer;
        Dom.querySelectorIn (ByClass "badge") forest header in
      let forest := Dom.remove forest row in
      match badge with
      | None => setGlobalEventsResults forest st
      | Some badge =>
          let currentCount := Cache.count (currentEventsData st) in
          setGlobalEventsResults
            (Dom.setChildren [Text (JsString.ofNat currentCount +:+ " event(s)")]
                             forest badge)
            st
      end
  end.

Definition executeDeleteEvent (eventId : string) (sessionId actorId : option string)
    (outcome : fetchOutcome json) (st : state) : state :=
  match currentMemory st with
  | None => consoleError "No memory selected" st
  | Some memory =>
      let st :=
        issue (Request "DELETE"
                 (deleteEventUrl (Memory.id memory) eventId sessionId actorId) None) st in
      match okBody outcome with
      | inr result =>
          let st := setCurrentEventsData (Cache.remove eventId (currentEventsData st)) st in
          let st := removeEventRow eventId st in
          showCopySuccess "Event deleted successfully" st
      | inl message =>
          alert ("Error deleting event: " +:+ message)
                (consoleError "Error deleting event:" st)
      end
  end.

(** [text.match(/Namespace: <code>([^<]+)<\/code>/)]: the first group of
    the leftmost match. *)
Definition matchNamespaceHere (text : string) : option string :=
  if String.prefix "Namespace: <code>" text
  then
    let (run, rest) := JsString.spanNot "<" (JsString.drop 17 text) in
    if JsString.truthy run && String.prefix "</code>" rest then Some run else None
  else None.

Fixpoint matchNamespace (text : string) : option string :=
  match matchNamespaceHere text with
  | Some run => Some run
  | None =>
      match text with
      | EmptyString => None
      | String _ text' => matchNamespace text'
      end
  end.

(** The results containers of the strategy tabs, in document order. *)
Definition recordContainers (st : state) : list container :=
  flat_map (fun i => [MemoryRecordsResults i; RetrieveResults i])
           (seq 0 (length (panes st))).

(** [document.querySelector] for a row that carries [data-record-id]: such
    rows are written into the results containers of the strategy tabs
    only.  As for an event, the selector is a template around the id, and
    is the one searched here for an id that is [JsString.plain]. *)
Definition findRecordRow (recordId : string) (st : state)
  : option (container * Dom.path) :=
  snd <$>
  Dom.firstFrom
    (fun c =>
       forest ← innerHTML c st;
       row ← Dom.querySelector (ByTagAttr "tr" "data-record-id" recordId) forest;
       Some (c, row))
    0 (recordContainers st).

Definition removeRecordRow (recordId : string) (st : state) : state :=
  match findRecordRow recordId st with
  | None => st
  | Some (c, row) =>
      let forest := default [] (innerHTML c st) in
      let countText :=
        tableContainer ← Dom.closest (ByClass "table-responsive") forest row;
        header ← Dom.previousElementSibling forest tableContainer;
        Dom.querySelectorIn (ByTag "small") forest header in
      let forest := Dom.remove forest row in
      match countText with
      | None => setInnerHTML c forest st
      | Some countText =>
          let currentCount := Cache.count (currentRecordsData st) in
          let namespace :=
            default EmptyString
              (node ← Dom.nodeAt forest countText;
               matchNamespace (Dom.textContent node)) in
          setInnerHTML c
            (Dom.setChildren (recordCount namespace currentCount) forest countText)
            st
      end
  end.

Definition executeDeleteRecord (recordId namespace : string)
    (outcome : fetchOutcome json) (st : state) : state :=
  match currentMemory st with
  | None => consoleError "No memory selected" st
  | Some memory =>
      let st :=
        issue (Request "DELETE"
                 (deleteRecordUrl (Memory.id memory) recordId namespace) None) st in
      match okBody outcome with
      | inr result =>
          let st := setCurrentRecordsData (Cache.remove recordId (currentRecordsData st)) st in
          let st := removeRecordRow recordId st in
          showCopySuccess "Memory record deleted successfully" st
      | inl message =>
          alert ("Error deleting memory record: " +:+ message)
                (consoleError "Error deleting memory record:" st)
      end
  end.

(** A click on the confirm button of the delete modal. *)
Definition clickDeleteConfirm (outcome : fetchOutcome json) (st : state) : state :=
  match deleteConfirmHandler st with
  | None => st
  | Some (DeleteEvent eventId sessionId actorId) =>
      executeDeleteEvent eventId sessionId actorId outcome (setDeleteModalShown false st)
  | Some (DeleteRecord recordId namespace) =>
      executeDeleteRecord recordId namespace outcome (setDeleteModalShown false st)
  end.

(** *** The four workflows *)

Record apiCallConfig (B : Type) : Type := ApiCallConfig {
  resultsDiv : container;
  validation : state -> bool * state;
  apiCall : state -> (string + B) * state;
  displayFunction : container -> B -> state -> state;
  loadingMessage : string;
  errorPrefix : string
}.
Arguments ApiCallConfig {B}.
Arguments resultsDiv {B}.
Arguments validation {B}.
Arguments apiCall {B}.
Arguments displayFunction {B}.
Arguments loadingMessage {B}.
Arguments errorPrefix {B}.

(** [apiCall] answers [inl message] when it throws an error with that
    message.  A results container that the page lacks makes the first write
    to it throw outside the [try]: the rejection reaches the handler of
    [unhandledrejection], which logs it. *)
Definition executeApiCall {B : Type} (config : apiCallConfig B) (st : state) : state :=
  match innerHTML (resultsDiv config) st with
  | None => consoleError "Unhandled promise rejection:" st
  | Some _ =>
      let (valid, st) := validation config st in
      if negb valid then st
      else
        let st := setInnerHTML (resultsDiv config) (showLoading (loadingMessage config)) st in
        let (result, st) := apiCall config st in
        match result with
        | inr result => displayFunction config (resultsDiv config) result st
        | inl message =>
            setInnerHTML (resultsDiv config)
              (showError (errorPrefix config +:+ ": " +:+ message))
              (consoleError (errorPrefix config +:+ ":") st)
        end
  end.

Definition orDefault (s : string) : string :=
  if JsString.truthy s then s else "default".

Definition addEventUrl (memoryId : string) : string :=
  "/api/memories/" +:+ memoryId +:+ "/records".

Definition listEventsUrl (memoryId sessionId actorId : string) : string :=
  "/api/memories/" +:+ memoryId
  +:+ "/events?session_id=" +:+ JsString.encodeURIComponent sessionId
  +:+ "&actor_id=" +:+ JsString.encodeURIComponent actorId
  +:+ "&max_results=50".

Definition listRecordsUrl (memoryId namespace : string) : string :=
  "/api/memories/" +:+ memoryId
  +:+ "/records?namespace=" +:+ JsString.encodeURIComponent namespace
  +:+ "&max_results=50".

Definition retrieveUrl (memoryId : string) : string :=
  "/api/memories/" +:+ memoryId +:+ "/retrieve".

(** [new Error(err.detail || response.statusText)] after
    [err = await response.json()] *)
Definition detailOrStatusText (outcome : fetchOutcome addEventResult)
  : string + addEventResult :=
  match outcome with
  | NetworkError message => inl message
  | HttpError _ _ (inl message) => inl message
  | HttpError _ statusText (inr err) =>
      match detail err with
      | Some d => if Json.truthy d then inl (Json.toString d) else inl statusText
      | None => inl statusText
      end
  | HttpOk body => body
  end.

Definition executeAddEvent (outcome : fetchOutcome addEventResult) (st : state) : state :=
  match currentMemory st with
  | None => consoleError "No memory selected" st
  | Some memory =>
      executeApiCall
        {| resultsDiv := AddEventResults;
           validation := fun st =>
             if negb (JsString.truthy (JsString.trim (inputValue "add-event-content" st)))
             then (false, setInnerHTML AddEventResults (showWarning "Please enter content.") st)
             else (true, st);
           apiCall := fun st =>
             (detailOrStatusText outcome,
              issue (Request "POST" (addEventUrl (Memory.id memory))
                       (Some (JObj
                          [("content", JStr (JsString.trim (inputValue "add-event-content" st)));
                           ("contentType", JStr (inputValue "add-event-type" st));
                           ("role", JStr (inputValue "add-event-role" st));
                           ("actorId",
                            JStr (orDefault (JsString.trim (inputValue "add-event-actor" st))));
                           ("sessionId",
                            JStr (orDefault (JsString.trim (inputValue "add-event-session" st))))])))
                    st);
           displayFunction := fun container result st =>
             setInputValue "add-event-content" EmptyString
               (setInnerHTML container
                  [Elem "div" ["alert"; "alert-success"] []
                     [icon ["bi"; "bi-check-circle"; "me-2"];
                      Text (JsString.ofProperty (resultMessage result)
                            +:+ " (Event ID: "
                            +:+ JsString.ofProperty (resultEventId result) +:+ ")")]]
                  st);
           loadingMessage := "Creating event...";
           errorPrefix := "Error creating event" |}
        st
  end.

Definition executeGlobalListEvents (outcome : fetchOutcome eventsResult) (st : state)
  : state :=
  match currentMemory st with
  | None => consoleError "No memory selected" st
  | Some memory =>
      executeApiCall
        {| resultsDiv := GlobalEventsResults;
           validation := fun st =>
             let sessionId := JsString.trim (inputValue "global-session-id" st) in
             let actorId := JsString.trim (inputValue "global-actor-id" st) in
             if negb (JsString.truthy sessionId) || negb (JsString.truthy actorId)
             then (false,
                   setInnerHTML GlobalEventsResults
                     (showWarning "Please enter both Session ID and Actor ID.") st)
             else (true, st);
           apiCall := fun st =>
             let sessionId := JsString.trim (inputValue "global-session-id" st) in
             let actorId := JsString.trim (inputValue "global-actor-id" st) in
             let st := setCurrentActorId (Some actorId)
                         (setCurrentSessionId (Some sessionId) st) in
             (okBody outcome,
              issue (Request "GET" (listEventsUrl (Memory.id memory) sessionId actorId) None)
                    st);
           displayFunction := fun container result st =>
             displayEvents container (resultEvents result)
                           (currentSessionId st) (currentActorId st) st;
           loadingMessage := "Loading events...";
           errorPrefix := "Error loading events" |}
        st
  end.

(** [currentMemory.strategies[strategyIndex]]: reading an index of a
    missing [strategies] throws. *)
Inductive strategyLookup : Type :=
| NoMemory
| Throws
| NoStrategy
| Found (memory : Memory.t) (s : strategy).

Definition currentStrategy (strategyIndex : nat) (st : state) : strategyLookup :=
  match currentMemory st with
  | None => NoMemory
  | Some memory =>
      match Memory.strategies memory with
      | None => Throws
      | Some strategies =>
          match strategies !! strategyIndex with
          | Some s => Found memory s
          | None => NoStrategy
          end
      end
  end.

Definition updatePane (strategyIndex : nat) (f : pane -> pane) (st : state) : state :=
  setPanes (alter f strategyIndex (panes st)) st.

Definition setNamespaceInput (value : string) (p : pane) : pane :=
  Pane (tabLabel p) (paneStrategy p) (recordsFormHidden p) (retrieveFormHidden p)
       value (searchQueryInput p) (retrieveNamespaceInput p)
       (recordsResults p) (retrieveResults p).

Definition setSearchQueryInput (value : string) (p : pane) : pane :=
  Pane (tabLabel p) (paneStrategy p) (recordsFormHidden p) (retrieveFormHidden p)
       (namespaceInput p) value (retrieveNamespaceInput p)
       (recordsResults p) (retrieveResults p).

Definition setRetrieveNamespaceInput (value : string) (p : pane) : pane :=
  Pane (tabLabel p) (paneStrategy p) (recordsFormHidden p) (retrieveFormHidden p)
       (namespaceInput p) (searchQueryInput p) value
       (recordsResults p) (retrieveResults p).

Definition setFormsHidden (records retrieve : bool) (p : pane) : pane :=
  Pane (tabLabel p) (paneStrategy p) records retrieve
       (namespaceInput p) (searchQueryInput p) (retrieveNamespaceInput p)
       (recordsResults p) (retrieveResults p).

(** The value of a field of the form of a strategy tab. *)
Definition paneInput (field : pane -> string) (strategyIndex : nat) (st : state) : string :=
  default EmptyString (field <$> panes st !! strategyIndex).

Definition listMemoryRecords (strategyIndex : nat) (st : state) : state :=
  match currentStrategy strategyIndex st with
  | NoMemory | NoStrategy => consoleError "Strategy not found" st
  | Throws => consoleError "JavaScript error:" st
  | Found _ s =>
      updatePane strategyIndex
        (fun p =>
           let p := setFormsHidden false true p in
           if negb (JsString.truthy (namespaceInput p))
           then setNamespaceInput (getSimplifiedNamespace s) p
           else p)
        st
  end.

Definition retrieveMemoryRecords (strategyIndex : nat) (st : state) : state :=
  match currentStrategy strategyIndex st with
  | NoMemory | NoStrategy => consoleError "Strategy not found" st
  | Throws => consoleError "JavaScript error:" st
  | Found _ s =>
      updatePane strategyIndex
        (fun p =>
           let p := setFormsHidden true false p in
           if negb (JsString.truthy (retrieveNamespaceInput p))
           then setRetrieveNamespaceInput (getSimplifiedNamespace s) p
           else p)
        st
  end.

Definition executeListMemoryRecords (strategyIndex : nat)
    (outcome : fetchOutcome recordsResult) (st : state) : state :=
  match currentStrategy strategyIndex st with
  | NoMemory | NoStrategy => consoleError "Strategy not found" st
  | Throws => consoleError "Unhandled promise rejection:" st
  | Found memory _ =>
      executeApiCall
        {| resultsDiv := MemoryRecordsResults strategyIndex;
           validation := fun st =>
             if negb (JsString.truthy (JsString.trim (paneInput namespaceInput strategyIndex st)))
             then (false,
                   setInnerHTML (MemoryRecordsResults strategyIndex)
                     (showWarning "Please enter a namespace.") st)
             else (true, st);
           apiCall := fun st =>
             let namespace := JsString.trim (paneInput namespaceInput strategyIndex st) in
             (okBody outcome,
              issue (Request "GET" (listRecordsUrl (Memory.id memory) namespace) None) st);
           displayFunction := fun container result st =>
             displayRecords container (resultRecords result)
               (JsString.trim (paneInput namespaceInput strategyIndex st))
               "Memory Records" st;
           loadingMessage := "Loading memory records...";
           errorPrefix := "Error loading memory records" |}
        st
  end.

Definition executeRetrieveMemoryRecords (strategyIndex : nat)
    (outcome : fetchOutcome recordsResult) (st : state) : state :=
  match currentStrategy strategyIndex st with
  | NoMemory | NoStrategy => consoleError "Strategy not found" st
  | Throws => consoleError "Unhandled promise rejection:" st
  | Found memory _ =>
      executeApiCall
        {| resultsDiv := RetrieveResults strategyIndex;
           validation := fun st =>
             let query := JsString.trim (paneInput searchQueryInput strategyIndex st) in
             let namespace :=
               JsString.trim (paneInput retrieveNamespaceInput strategyIndex st) in
             if negb (JsString.truthy query) || negb (JsString.truthy namespace)
             then (false,
                   setInnerHTML (RetrieveResults strategyIndex)
                     (showWarning "Please enter both search query and namespace.") st)
             else (true, st);
           apiCall := fun st =>
             let query := JsString.trim (paneInput searchQueryInput strategyIndex st) in
             let namespace :=
               JsString.trim (paneInput retrieveNamespaceInput strategyIndex st) in
             (okBody outcome,
              issue (Request "POST" (retrieveUrl (Memory.id memory))
                       (Some (JObj [("query", JStr query);
                                    ("namespace", JStr namespace);
                                    ("maxResults", JNum 20)])))
                    st);
           displayFunction := fun container result st =>
             let query := JsString.trim (paneInput searchQueryInput strategyIndex st) in
             let namespace :=
               JsString.trim (paneInput retrieveNamespaceInput strategyIndex st) in
             displayRecords container (resultRecords result) namespace
               ("Search results for " +:+ quoted query) st;
           loadingMessage := "Retrieving memory records...";
           errorPrefix := "Error retrieving memory records" |}
        st
  end.

(** *** Selecting a memory *)

Definition memoriesUrl : string := "/api/memories".

Definition memoryUrl (memoryId : string) : string := "/api/memories/" +:+ memoryId.

(** Once the options of [#memory-select] are replaced the first one, whose
    value is empty, is the selected one. *)
Definition loadMemories (outcome : fetchOutcome (list Memory.t)) (st : state) : state :=
  let st := hideElement "memory-error"
              (hideElement "memory-list" (showElement "memory-loading" st)) in
  let st := issue (Request "GET" memoriesUrl None) st in
  match okBody outcome with
  | inr memories =>
      showElement "memory-list"
        (hideElement "memory-loading"
           (setMemorySelectValue EmptyString (setMemoryOptions memories st)))
  | inl _ =>
      showElement "memory-error"
        (hideElement "memory-loading" (consoleError "Error loading memories:" st))
  end.

Definition showMemoryInfo (memory : Memory.t) (st : state) : state :=
  showElement "memory-info"
    (setText "memory-updated" (formatDate (Memory.updatedAt memory))
       (setText "memory-created" (formatDate (Memory.createdAt memory))
          (setClassName "memory-status"
             ("badge " +:+ getStatusBadgeClass (Memory.status memory))
             (setText "memory-status" (default EmptyString (Memory.status memory)) st)))).

Definition hideMemoryInfo (st : state) : state := hideElement "memory-info" st.

Definition hideMemoryDetails (st : state) : state :=
  showElement "welcome-message" (hideElement "memory-details" st).

(** An optional field of the detail panel: shown with its text when the
    property is truthy, hidden otherwise. *)
Definition showOptional (value : option string) (textId blockId : string) (st : state)
  : state :=
  match value with
  | Some text =>
      if JsString.truthy text then showElement blockId (setText textId text st)
      else hideElement blockId st
  | None => hideElement blockId st
  end.

Definition newPane (index : nat) (s : strategy) : pane :=
  Pane (default EmptyString
          (JsString.orElse (strategyName s)
                           (Some ("Strategy " +:+ JsString.ofNat (index + 1)))))
       s true true EmptyString EmptyString EmptyString [] [].

(** [displayStrategies] builds the markup of all the tabs before it writes
    any of it; [generateStrategyContent] throws on a strategy without
    [namespaces].  [inl message] is the error thrown. *)
Definition displayStrategies (strategies : list strategy) (st : state) : string + state :=
  match strategies with
  | [] => inr (setNoStrategiesNotice true (setPanes [] st))
  | _ =>
      if forallb (fun s => match namespaces s with Some _ => true | None => false end)
                 strategies
      then inr (setNamespaceTimers
                  (namespaceTimers st ++ imap (fun index s => (s, index)) strategies)
                  (setNoStrategiesNotice false (setPanes (imap newPane strategies) st)))
      else inl namespacesTypeError
  end.


(** [displayMemoryDetails] writes the overview before it comes to the
    strategies: the state is given back with what was written also when
    [displayStrategies] throws, and then with the message of the error.
    The title is written as markup, an icon before the name: it is held as
    the text that the element then has, for a name that is
    [JsString.plainText]. *)
Definition displayMemoryDetails (memory : Memory.t) (st : state) : option string * state :=
  let st := setText "memory-title"
              (default EmptyString
                 (JsString.orElse (Memory.name memory) (Some "Memory Details"))) st in
  let st := setText "detail-status" (default EmptyString (Memory.status memory)) st in
  let st := setClassName "detail-status"
              ("badge " +:+ getStatusBadgeClass (Memory.status memory)) st in
  let st := setText "detail-created" (formatDate (Memory.createdAt memory)) st in
  let st := setText "detail-updated" (formatDate (Memory.updatedAt memory)) st in
  let st := showOptional (Memory.description memory)
              "detail-description" "memory-description" st in
  let st := setText "detail-id" (Memory.id memory) st in
  let st := setText "detail-arn" (default EmptyString (Memory.arn memory)) st in
  let st := showOptional (Memory.encryptionKeyArn memory)
              "detail-encryption-key" "detail-encryption" st in
  let st := showOptional (Memory.memoryExecutionRoleArn memory)
              "detail-execution-role" "detail-execution" st in
  match displayStrategies (default [] (Memory.strategies memory)) st with
  | inr st' => (None, st')
  | inl message => (Some message, st)
  end.

Definition loadMemoryDetails (memoryId : string) (outcome : fetchOutcome Memory.t)
    (st : state) : state :=
  let st := showElement "loading-memory"
              (hideElement "error-memory"
                 (hideElement "memory-details" (hideElement "welcome-message" st))) in
  let st := issue (Request "GET" (memoryUrl memoryId) None) st in
  let failed message st :=
    showElement "error-memory"
      (hideElement "loading-memory"
         (setText "error-message" message
            (consoleError "Error loading memory details:" st))) in
  match okBody outcome with
  | inr memory =>
      let st := setCurrentMemory (Some memory) st in
      match displayMemoryDetails memory st with
      | (None, st) => showElement "memory-details" (hideElement "loading-memory" st)
      | (Some message, st) => failed message st
      end
  | inl message => failed message st
  end.

(** The [change] event of [#memory-select]: [selected] is the memory of the
    chosen option, [None] for the first option, whose value is empty. *)
Definition handleMemorySelection (selected : option Memory.t)
    (outcome : fetchOutcome Memory.t) (st : state) : state :=
  let memoryId := match selected with Some memory => Memory.id memory | None => EmptyString end in
  let st := setMemorySelectValue memoryId st in
  match selected with
  | Some memoryData =>
      if negb (JsString.truthy memoryId)
      then hideMemoryInfo (hideMemoryDetails st)
      else loadMemoryDetails memoryId outcome (showMemoryInfo memoryData st)
  | None => hideMemoryInfo (hideMemoryDetails st)
  end.

Definition refreshData (outcome : fetchOutcome (list Memory.t)) (st : state) : state :=
  let st := setMemorySelectValue EmptyString (setCurrentMemory None st) in
  loadMemories outcome (hideMemoryInfo (hideMemoryDetails st)).

End Browser.

(** The module as it is loaded: no memory, empty caches, nothing rendered.
    [hiddenAtLoad] are the ids of the elements that the markup of the page
    hides from the start. *)
Definition initialState (hiddenAtLoad : gset string) : state :=
  State None None None ∅ ∅ None [] hiddenAtLoad ∅ ∅ ∅ [] EmptyString [] [] false []
        false false None [] [] [] [].

(** ** Reading the page and comparing states *)

(** The ids that the view and delete buttons under a node carry in
    [data-item-id]: what a click on them resolves through the caches. *)
Fixpoint itemIds (n : node) : list string :=
  match n with
  | Text _ => []
  | Elem _ classes attrs children =>
      (if existsb (String.eqb "view-json-btn") classes
          || existsb (String.eqb "delete-btn") classes
       then match Dom.attr "data-item-id" attrs with
            | Some itemId => [itemId]
            | None => []
            end
       else [])
      ++ flat_map itemIds children
  end.

(** The text of the first node of a forest that matches a selector. *)
Definition textOfFirst (sel : selector) (forest : list node) : option string :=
  p ← Dom.querySelector sel forest;
  node ← Dom.nodeAt forest p;
  Some (Dom.textContent node).

(** The text of the count badge of an event table. *)
Definition badgeText (forest : list node) : option string :=
  textOfFirst (ByClass "badge") forest.

(** All the text of a results container. *)
Definition containerText (c : container) (st : state) : option string :=
  (fun forest => String.concat EmptyString (map Dom.textContent forest)) <$> innerHTML c st.

(** The request did not succeed: the fetch rejected, or the status of the
    response is not a success. *)
Definition failed {B : Type} (outcome : fetchOutcome B) : Prop :=
  match outcome with
  | NetworkError _ | HttpError _ _ _ => True
  | HttpOk _ => False
  end.

(** The same globals, the same page and the same modals. *)
Definition sameClientState (st st' : state) : Prop :=
  currentMemory st' = currentMemory st /\
  currentSessionId st' = currentSessionId st /\
  currentActorId st' = currentActorId st /\
  currentEventsData st' = currentEventsData st /\
  currentRecordsData st' = currentRecordsData st /\
  jsonEditor st' = jsonEditor st /\
  namespaceTimers st' = namespaceTimers st /\
  hidden st' = hidden st /\
  texts st' = texts st /\
  classNames st' = classNames st /\
  inputs st' = inputs st /\
  memoryOptions st' = memoryOptions st /\
  memorySelectValue st' = memorySelectValue st /\
  globalEventsResults st' = globalEventsResults st /\
  addEventResults st' = addEventResults st /\
  noStrategiesNotice st' = noStrategiesNotice st /\
  panes st' = panes st /\
  jsonModalShown st' = jsonModalShown st /\
  deleteModalShown st' = deleteModalShown st /\
  deleteConfirmHandler st' = deleteConfirmHandler st.

(** Nothing happened but, at most, a line on the console. *)
Definition noop (st st' : state) : Prop :=
  sameClientState st st' /\
  requests st' = requests st /\
  alerts st' = alerts st /\
  toasts st' = toasts st.

(** ** The rows that a deletion leaves and the callback of a timer *)



(** ** A session of the application

    A browser whose [toLocaleString] answers [Invalid Date]; a service with
    one memory of one strategy.  The user loads the page, picks the memory,
    lists the events of a session, opens the records form of the strategy
    and lists its records, then types a query into the search form. *)

Module Session.

Definition toLocaleString : json -> string := fun _ => "Invalid Date".
Definition namespacesTypeError : string := "strategy.namespaces is undefined".

Definition strategy1 : strategy :=
  Strategy "S1" (Some "semantic") (Some ["/strategy/{memoryStrategyId}/"]).

Definition memory1 : Memory.t :=
  Memory.Make "mem-1" (Some "Demo") (Some "ACTIVE") None None None None None None
              (Some [strategy1]).

Definition event (eventId : string) : Event.t :=
  Event.Make (Some eventId) None None None
             (Some (JObj [("text", JStr "hello")])) None None.

Definition record (recordId : option string) : MemoryRecord.t :=
  MemoryRecord.Make recordId None (Some "S1") None
                    (Some (JObj [("text", JStr "a fact")])) None.

Definition atLoad : state :=
  loadMemories (HttpOk (inr [memory1]))
               (initialState {["memory-details"; "memory-info"]}).

Definition selected : state :=
  handleMemorySelection toLocaleString namespacesTypeError
    (Some memory1) (HttpOk (inr memory1)) atLoad.

Definition eventsListed : state :=
  executeGlobalListEvents toLocaleString
    (HttpOk (inr (EventsResult (Some [event "e1"; event "e2"]))))
    (setInputValue "global-actor-id" "alice"
       (setInputValue "global-session-id" "s1" selected)).

Definition recordsListed : state :=
  executeListMemoryRecords toLocaleString 0
    (HttpOk (inr (RecordsResult (Some [record (Some "r1"); record (Some "r2")]))))
    (listMemoryRecords 0 eventsListed).

Definition queryTyped : state :=
  updatePane 0 (setSearchQueryInput "facts")
             (retrieveMemoryRecords 0 recordsListed).

(** The same steps on a memory whose id needs escaping in a URL. *)
Definition memory2 : Memory.t :=
  Memory.Make "team/a b" (Some "Shared") (Some "ACTIVE") None None None None None None
              (Some [strategy1]).

Definition selected2 : state :=
  setInputValue "global-actor-id" "alice"
    (setInputValue "global-session-id" "s1"
       (handleMemorySelection toLocaleString namespacesTypeError
          (Some memory2) (HttpOk (inr memory2))
          (loadMemories (HttpOk (inr [memory2]))
                        (initialState {["memory-details"; "memory-info"]})))).

End Session.

(** * Properties *)

(** ** [replace] and the default namespace *)

Lemma append_cons (c : ascii) (a b : string) : String c a +:+ b = String c (a +:+ b).
Proof. reflexivity. Qed.

Lemma prefix_drop (pat s : string) :
  String.prefix pat s = true -> s = pat +:+ JsString.drop (String.length pat) s.
Proof.
  revert s. induction pat as [|c pat IH]; intros s H; [reflexivity|].
  destruct s as [|d s]; [discriminate|]. simpl in H.
  destruct (ascii_dec c d) as [->|]; [|discriminate].
  rewrite append_cons. simpl. f_equal. by apply IH.
Qed.

(** [splitAtFirst] cuts the string around an occurrence of the pattern. *)
Lemma splitAtFirst_sound (pat s before after : string) :
  JsString.splitAtFirst pat s = Some (before, after) -> s = before +:+ pat +:+ after.
Proof.
  revert before after. induction s as [|c s IH]; intros before after.
  - destruct pat; simpl; [|discriminate]. by intros [= <- <-].
  - cbn [JsString.splitAtFirst]. destruct (String.prefix pat (String c s)) eqn:E.
    + intros [= <- <-]. by apply prefix_drop in E.
    + destruct (JsString.splitAtFirst pat s) as [[b a]|]; [|discriminate].
      intros [= <- <-]. rewrite append_cons. f_equal. by apply IH.
Qed.

(** A replacement text without a dollar sign stands for itself. *)
Lemma getSubstitution_plain (matched before after template : string) :
  JsString.hasChar "$" template = false ->
  JsString.getSubstitution matched before after template = template.
Proof.
  induction template as [|c t IH]; [reflexivity|].
  cbn [JsString.getSubstitution JsString.hasChar]. intros H.
  apply orb_false_elim in H as [Hc Ht]. rewrite Ascii.eqb_sym in Hc.
  by rewrite Hc, IH.
Qed.

Lemma replace_plain (s pat replacement before after : string) :
  JsString.hasChar "$" replacement = false ->
  JsString.splitAtFirst pat s = Some (before, after) ->
  JsString.replace s pat replacement = before +:+ replacement +:+ after.
Proof.
  intros Hplain Hsplit. unfold JsString.replace. rewrite Hsplit.
  by rewrite getSubstitution_plain.
Qed.

(** With a strategy id free of dollar signs, the leftmost placeholder of the
    first namespace is replaced by the id and the rest is kept. *)
Lemma getSimplifiedNamespace_plain (s : strategy) (ns : string) (rest : list string)
    (before after : string) :
  namespaces s = Some (ns :: rest) ->
  JsString.hasChar "$" (strategyId s) = false ->
  JsString.splitAtFirst placeholder ns = Some (before, after) ->
  ns = before +:+ placeholder +:+ after /\
  getSimplifiedNamespace s = before +:+ strategyId s +:+ after.
Proof.
  intros Hns Hplain Hsplit. split; [by apply splitAtFirst_sound|].
  unfold getSimplifiedNamespace, JsString.includes. rewrite Hns, Hsplit.
  by apply replace_plain.
Qed.

Lemma getSimplifiedNamespace_no_placeholder (s : strategy) (ns : string) (rest : list string) :
  namespaces s = Some (ns :: rest) ->
  JsString.splitAtFirst placeholder ns = None ->
  getSimplifiedNamespace s = ns.
Proof.
  intros Hns Hsplit. unfold getSimplifiedNamespace, JsString.includes.
  by rewrite Hns, Hsplit.
Qed.

Lemma getSimplifiedNamespace_default (s : strategy) :
  namespaces s = None \/ namespaces s = Some [] ->
  getSimplifiedNamespace s = "/default/".
Proof. unfold getSimplifiedNamespace. by intros [-> | ->]. Qed.

Example getSimplifiedNamespace_S1 :
  getSimplifiedNamespace (Strategy "S1" None (Some ["/strategy/{memoryStrategyId}/"]))
  = "/strategy/S1/".
Proof. reflexivity. Qed.

(** C9 (the code departs from the claim).  [getSimplifiedNamespace] hands the
    strategy id to [String.prototype.replace] as the replacement text of a
    string pattern.  Only the leftmost placeholder is replaced, so a first
    namespace that names the placeholder twice keeps the second one; and a
    dollar pattern in the id is expanded, so the id [a$&b] comes out as
    [a{memoryStrategyId}b]. *)
Theorem C9_replace_keeps_placeholder :
  getSimplifiedNamespace
    (Strategy "S1" None (Some ["/{memoryStrategyId}/by/{memoryStrategyId}/"]))
  = "/S1/by/{memoryStrategyId}/"
  /\
  getSimplifiedNamespace
    (Strategy "a$&b" None (Some ["/strategy/{memoryStrategyId}/"]))
  = "/strategy/a{memoryStrategyId}b/".
Proof. split; reflexivity. Qed.

(** ** The content preview *)

Lemma textOf_nonEmpty (o : option json) : textOf o = Spec.nonEmptyStringValue o.
Proof. by destruct o as [[| | |[|c s]| |]|]. Qed.

Lemma firstSome_ext {A B : Type} (f g : A -> option B) (l : list A) :
  (forall x, f x = g x) -> Spec.firstSome f l = Spec.firstSome g l.
Proof. intros H. induction l as [|x l IH]; simpl; [done|]. by rewrite H, IH. Qed.

Lemma head_flat_map {A B : Type} (f : A -> list B) (l : list A) :
  head (flat_map f l) = Spec.firstSome (fun x => head (f x)) l.
Proof.
  induction l as [|x l IH]; simpl; [done|].
  destruct (f x) as [|y ys]; simpl; [apply IH|done].
Qed.

(** Below depth 3 nothing is pushed. *)
Lemma extractStrings_deep (v : json) (depth : nat) :
  3 < depth -> extractStrings v depth = [].
Proof.
  intros H. apply Nat.ltb_lt in H. destruct v; simpl; by rewrite H.
Qed.

(** The first string that [extractStrings] pushes is the first long string
    within the depth limit. *)
Lemma extractStrings_head (limit depth : nat) (v : json) :
  depth + limit = 3 ->
  head (extractStrings v depth) = Spec.firstLongString limit v.
Proof.
  revert depth v. induction limit as [|limit IH]; intros depth v Hd.
  - assert (depth = 3) as -> by lia.
    destruct v as [| | |s|items|entries]; simpl; try done.
    + by destruct (10 <? JsString.length s).
    + rewrite head_flat_map. induction items as [|x items IHi]; simpl; [done|].
      by rewrite extractStrings_deep by lia.
    + rewrite head_flat_map. induction entries as [|[k x] entries IHe]; simpl; [done|].
      by rewrite extractStrings_deep by lia.
  - assert ((3 <? depth) = false) as Hguard by (apply Nat.ltb_ge; lia).
    destruct v as [| | |s|items|entries]; simpl; rewrite ?Hguard; try done.
    + by destruct (10 <? JsString.length s).
    + rewrite head_flat_map. apply firstSome_ext. intros x. apply IH. lia.
    + rewrite head_flat_map. apply firstSome_ext. intros [k x]. apply IH. lia.
Qed.

(** The loop over the six keys, on any object: each key is looked up at the
    top level and then under [content] before the next key is. *)
Lemma firstTextField_interleaved (obj : json) (fields : list string) :
  firstTextField obj fields =
  Spec.firstSome
    (fun field =>
       match Spec.nonEmptyStringValue (Json.get obj field) with
       | Some s => Some s
       | None => Spec.nonEmptyStringValue (nestedField obj field)
       end)
    fields.
Proof.
  induction fields as [|field fields IH]; simpl; [done|].
  rewrite !textOf_nonEmpty, IH.
  by destruct (Spec.nonEmptyStringValue (Json.get obj field)),
              (Spec.nonEmptyStringValue (nestedField obj field)).
Qed.

Lemma nestedField_get (obj : json) (field : string) :
  nestedField obj field = (c ← Json.get obj "content"; Json.get c field).
Proof.
  unfold nestedField. destruct (Json.get obj "content") as [c|]; simpl; [|done].
  destruct c as [|[]|n|[|a s]| |]; simpl; try done. by destruct n.
Qed.

(** On the object that [generateContentPreview] builds, whose only keys are
    [content] and [metadata], the loop finds what a search of the six keys at
    the top level followed by a search under [content] finds. *)
Lemma firstTextField_fullContent (content metadata : option json) :
  firstTextField (fullContent content metadata) textFields =
  match Spec.atTopLevel Spec.nonEmptyStringValue (fullContent content metadata) with
  | Some s => Some s
  | None => Spec.underContent Spec.nonEmptyStringValue (fullContent content metadata)
  end.
Proof.
  rewrite firstTextField_interleaved.
  unfold Spec.atTopLevel, Spec.underContent, textFields.
  cbn [Spec.firstSome]. rewrite !nestedField_get.
  unfold fullContent.
  destruct content as [[| | |[|a s]|[|x items]|[|e entries]]|],
           metadata as [[| | |[|a' s']|[|x' items']|[|e' entries']]|];
    cbn; try reflexivity.
Qed.

(** On any object [extractTextForPreview] is the interleaved search followed
    by the scan. *)
Lemma extractTextForPreview_any_object (obj : json) :
  Json.truthy obj = true ->
  extractTextForPreview obj =
  match Spec.firstSome
          (fun field =>
             match Spec.nonEmptyStringValue (Json.get obj field) with
             | Some s => Some s
             | None => Spec.nonEmptyStringValue (nestedField obj field)
             end)
          textFields
  with
  | Some s => s
  | None =>
      match Spec.firstLongString 3 obj with
      | Some s => s
      | None => "Complex data structure"
      end
  end.
Proof.
  intros Htruthy. unfold extractTextForPreview. rewrite Htruthy. cbn [negb].
  rewrite firstTextField_interleaved.
  destruct (Spec.firstSome _ _); [done|].
  rewrite <- (extractStrings_head 3 0) by done.
  by destruct (extractStrings _ 0).
Qed.

(** On an object with a text key beside [content], the interleaved search
    differs from a search of the top level first. *)
Example interleaving_shows_on_other_objects :
  let obj := JObj [("content", JObj [("text", JStr "nested")]); ("message", JStr "top")] in
  extractTextForPreview obj = "nested" /\
  Spec.preview Spec.nonEmptyStringValue obj = "top".
Proof. split; reflexivity. Qed.

(** C7 (counterexample).  A content whose [text] is the empty string and
    whose [message] is not: the specified search stops at [text], a string
    value, and the preview would be empty; the code passes over it and
    returns the message. *)
Lemma C7_empty_string_is_passed_over :
  let obj :=
    fullContent
      (Some (JObj [("text", JStr EmptyString); ("message", JStr "hello there")])) None in
  extractTextForPreview obj = "hello there" /\
  Spec.preview Spec.stringValue obj = EmptyString /\
  extractTextForPreview obj <> Spec.preview Spec.stringValue obj.
Proof. split; [reflexivity|]. split; [reflexivity|]. discriminate. Qed.

(** C7 (amended).  For every content and metadata, the text extracted from
    the combined object is the first string that is not empty among the
    values of the keys text, content, message, description, summary and
    value, all six looked up at the top level before any is looked up one
    level under [content]; failing that, the first string longer than 10
    characters met by a scan of the object to depth 3 in property-iteration
    order; failing that, the marker "Complex data structure". *)
Theorem C7_preview_as_specified (content metadata : option json) :
  extractTextForPreview (fullContent content metadata)
  = Spec.preview Spec.nonEmptyStringValue (fullContent content metadata).
Proof.
  unfold extractTextForPreview, Spec.preview.
  replace (Json.truthy (fullContent content metadata)) with true by reflexivity.
  cbn [negb]. rewrite firstTextField_fullContent.
  destruct (Spec.atTopLevel _ _); [done|].
  destruct (Spec.underContent _ _); [done|].
  rewrite <- (extractStrings_head 3 0) by done.
  by destruct (extractStrings _ 0).
Qed.

(** ** Handlers *)

Lemma sameClientState_refl (st : state) : sameClientState st st.
Proof. repeat split. Qed.

Lemma noop_consoleError (line : string) (st : state) : noop st (consoleError line st).
Proof. repeat split. Qed.

Section Handlers.

Variable toLocaleString : json -> string.
Variable namespacesTypeError : string.

(** *** Deselecting *)

(** C2 (amended).  In every state, choosing the empty option of the memory
    selector hides the detail panel and the info panel and leaves the event
    cache and the record cache as they were. *)
Theorem C2_deselecting_hides_panels_keeps_caches
    (outcome : fetchOutcome Memory.t) (st : state) :
  let st' := handleMemorySelection toLocaleString namespacesTypeError None outcome st in
  "memory-details" ∈ hidden st' /\
  "memory-info" ∈ hidden st' /\
  currentEventsData st' = currentEventsData st /\
  currentRecordsData st' = currentRecordsData st.
Proof.
  cbn. repeat split; set_solver.
Qed.

(** Neither does refreshing clear the caches. *)
Lemma refreshData_keeps_caches (outcome : fetchOutcome (list Memory.t)) (st : state) :
  let st' := refreshData outcome st in
  currentMemory st' = None /\
  currentEventsData st' = currentEventsData st /\
  currentRecordsData st' = currentRecordsData st.
Proof.
  unfold refreshData, loadMemories. cbn. by destruct (okBody outcome).
Qed.

(** *** Deleting *)

Lemma okBody_failed {B : Type} (outcome : fetchOutcome B) :
  failed outcome -> exists message, okBody outcome = inl message.
Proof. destruct outcome; simpl; [eauto|eauto|done]. Qed.

(** C8.  When the request of a deletion fails, by a network error or by a
    status that is not a success, one blocking alert is shown and the
    globals, the page and the modals stay as they were: both caches keep
    their entries and no table, row or count is touched. *)
Theorem C8_failed_deletion_alerts_and_keeps_state
    (eventId recordId namespace : string) (sessionId actorId : option string)
    (outcome : fetchOutcome json) (st : state) :
  is_Some (currentMemory st) ->
  failed outcome ->
  (let st' := executeDeleteEvent eventId sessionId actorId outcome st in
   (exists message, alerts st' = alerts st ++ ["Error deleting event: " +:+ message]) /\
   sameClientState st st') /\
  (let st' := executeDeleteRecord recordId namespace outcome st in
   (exists message,
       alerts st' = alerts st ++ ["Error deleting memory record: " +:+ message]) /\
   sameClientState st st').
Proof.
  intros [memory Hmemory] Hfailed.
  destruct (okBody_failed outcome Hfailed) as [message Hmessage].
  unfold executeDeleteEvent, executeDeleteRecord. rewrite Hmemory. cbn.
  rewrite Hmessage. cbn. split; (split; [by exists message|repeat split]).
Qed.

Lemma removeEventRow_globals (eventId : string) (st : state) :
  let st' := removeEventRow eventId st in
  currentEventsData st' = currentEventsData st /\
  currentRecordsData st' = currentRecordsData st /\
  requests st' = requests st.
Proof.
  unfold removeEventRow. cbn.
  destruct (Dom.querySelector _ _); [|done].
  by destruct (_ ≫= _).
Qed.

(** On success the entry of the event leaves the cache and no other entry
    changes; one request, the DELETE, is issued. *)
Lemma executeDeleteEvent_ok (eventId : string) (sessionId actorId : option string)
    (outcome : fetchOutcome json) (memory : Memory.t) (result : json) (st : state) :
  currentMemory st = Some memory ->
  okBody outcome = inr result ->
  let st' := executeDeleteEvent eventId sessionId actorId outcome st in
  currentEventsData st' = Cache.remove eventId (currentEventsData st) /\
  currentRecordsData st' = currentRecordsData st /\
  requests st' =
    requests st ++
    [Request "DELETE" (deleteEventUrl (Memory.id memory) eventId sessionId actorId) None].
Proof.
  intros Hmemory Hok. unfold executeDeleteEvent. rewrite Hmemory. cbn. rewrite Hok.
  unfold removeEventRow. cbn.
  destruct (Dom.querySelector _ _); [|done].
  by destruct (_ ≫= _).
Qed.

Lemma find_generateContentPreview (sel_t sel_a sel_v : string) (content metadata : option json) :
  String.eqb sel_t "span" = false -> String.eqb sel_t "div" = false ->
  String.eqb sel_t "em" = false ->
  Dom.find (ByTagAttr sel_t sel_a sel_v) (generateContentPreview content metadata) = None.
Proof.
  intros Hspan Hdiv Hem. unfold generateContentPreview.
  destruct (negb (Json.hasKeys content) && negb (Json.hasKeys metadata)).
  - cbn. by rewrite Hspan.
  - destruct (JsString.truthy _); cbn; rewrite Hdiv; [|by rewrite Hem].
    unfold escapedText. by destruct (JsString.parsedText _).
Qed.

(** A row is found by its id and by nothing inside it. *)
Lemma find_eventRow (eventId : string) (e : Event.t) :
  Dom.find (ByTagAttr "tr" "data-event-id" eventId) (eventRow toLocaleString e)
  = if String.eqb eventId (eventKey e) then Some [] else None.
Proof.
  unfold eventRow. cbn -[generateContentPreview eventKey].
  destruct (String.eqb eventId (eventKey e)); [done|].
  by rewrite find_generateContentPreview.
Qed.

Lemma firstFrom_eventRows (eventId : string) (events : list Event.t)
    (i k : nat) (p : Dom.path) :
  Dom.firstFrom (Dom.find (ByTagAttr "tr" "data-event-id" eventId)) i
                (map (eventRow toLocaleString) events) = Some (k, p) ->
  p = [].
Proof.
  revert i. induction events as [|e events IH]; intros i; [done|].
  cbn [map Dom.firstFrom]. rewrite find_eventRow.
  destruct (String.eqb eventId (eventKey e)); [by intros [= _ <-]|apply IH].
Qed.

Lemma querySelector_eventRow (eventId : string) (events : list Event.t) (row : Dom.path) :
  Dom.querySelector (ByTagAttr "tr" "data-event-id" eventId)
                    (eventsTable toLocaleString events) = Some row ->
  exists k, row = [0; 1; 1; k].
Proof.
  unfold eventsTable, Dom.querySelector.
  cbn -[eventRow JsString.ofNat].
  destruct (Dom.firstFrom _ 0 (map _ events)) as [[k p]|] eqn:Hrow; [|done].
  apply firstFrom_eventRows in Hrow as ->. intros [= <-]. by exists k.
Qed.

(** No badge is found from a row of an event table: the nearest
    [.table-responsive] is the root of the table, which has nothing before
    it. *)
Lemma no_badge_before_eventsTable (events : list Event.t) (k : nat) :
  let forest := eventsTable toLocaleString events in
  (tableContainer ← Dom.closest (ByClass "table-responsive") forest [0; 1; 1; k];
   header ← Dom.previousElementSibling forest tableContainer;
   Dom.querySelectorIn (ByClass "badge") forest header) = None.
Proof.
  unfold eventsTable. cbn -[eventRow JsString.ofNat].
  rewrite list_lookup_fmap. by destruct (events !! k).
Qed.

(** Whatever events the table was rendered from and whatever row is taken
    out, the count badge keeps the text it was rendered with. *)
Lemma removeEventRow_keeps_badge (eventId : string) (events : list Event.t) (st : state) :
  globalEventsResults st = eventsTable toLocaleString events ->
  badgeText (globalEventsResults (removeEventRow eventId st))
  = Some (JsString.ofNat (length events) +:+ " event(s)").
Proof.
  intros Hforest. unfold removeEventRow. rewrite Hforest.
  destruct (Dom.querySelector _ _) as [row|] eqn:Hrow.
  - apply querySelector_eventRow in Hrow as [k ->].
    rewrite no_badge_before_eventsTable. by cbn -[eventRow JsString.ofNat].
  - by rewrite Hforest.
Qed.

(** So after any list of events is rendered and any deletion succeeds, the
    badge still shows the number of events that were listed. *)
Lemma badge_after_successful_deletion
    (e : Event.t) (events : list Event.t) (listedSession listedActor : option string)
    (eventId : string) (sessionId actorId : option string)
    (outcome : fetchOutcome json) (memory : Memory.t) (result : json) (st : state) :
  currentMemory st = Some memory ->
  okBody outcome = inr result ->
  badgeText
    (globalEventsResults
       (executeDeleteEvent eventId sessionId actorId outcome
          (displayEvents toLocaleString GlobalEventsResults (Some (e :: events))
                         listedSession listedActor st)))
  = Some (JsString.ofNat (S (length events)) +:+ " event(s)").
Proof.
  intros Hmemory Hok. unfold executeDeleteEvent.
  change (currentMemory (displayEvents _ _ _ _ _ st)) with (currentMemory st).
  rewrite Hmemory. cbv zeta. rewrite Hok.
  unfold showCopySuccess. cbn [globalEventsResults setToasts].
  by apply (removeEventRow_keeps_badge eventId (e :: events)).
Qed.

(** *** Errors of the list and search calls *)

(** Whatever the body of a failed search response, the banner shows the
    status line, and the caches are left as they were. *)
Lemma retrieve_error_banner (strategyIndex status : nat) (statusText : string)
    (body : string + errorBody) (memory : Memory.t) (s : strategy) (p : pane) (st : state) :
  currentStrategy strategyIndex st = Found memory s ->
  panes st !! strategyIndex = Some p ->
  JsString.truthy (JsString.trim (searchQueryInput p)) = true ->
  JsString.truthy (JsString.trim (retrieveNamespaceInput p)) = true ->
  let st' := executeRetrieveMemoryRecords toLocaleString strategyIndex
               (HttpError status statusText body) st in
  innerHTML (RetrieveResults strategyIndex) st'
  = Some (showError ("Error retrieving memory records: "
                     +:+ httpStatusLine status statusText)) /\
  currentEventsData st' = currentEventsData st /\
  currentRecordsData st' = currentRecordsData st.
Proof.
  intros Hstrategy Hpane Hquery Hnamespace st'.
  assert (exists r,
             st' = setInnerHTML (RetrieveResults strategyIndex)
                     (showError ("Error retrieving memory records: "
                                 +:+ httpStatusLine status statusText))
                     (consoleError "Error retrieving memory records:"
                        (issue r
                           (setInnerHTML (RetrieveResults strategyIndex)
                              (showLoading "Retrieving memory records...") st))))
    as [r ->].
  { subst st'. unfold executeRetrieveMemoryRecords, executeApiCall. rewrite Hstrategy.
    cbn [resultsDiv validation apiCall displayFunction loadingMessage errorPrefix].
    assert (innerHTML (RetrieveResults strategyIndex) st = Some (retrieveResults p)) as ->
      by (cbn; by rewrite Hpane).
    unfold paneInput at 1 2. rewrite Hpane.
    cbn [fmap option_fmap option_map default id].
    rewrite Hquery, Hnamespace. cbn [negb orb okBody]. cbv zeta. eauto. }
  split; [|by split]. cbn.
  rewrite list_lookup_alter_eq, list_lookup_alter_eq, Hpane. by cbn.
Qed.

(** *** What a result does to the cache *)

(** A result that is not empty replaces the cache by the entries of its
    items, whatever the cache held. *)
Lemma displayEvents_replaces_cache (c : container) (e : Event.t) (events : list Event.t)
    (sessionId actorId : option string) (st : state) :
  currentEventsData (displayEvents toLocaleString c (Some (e :: events)) sessionId actorId st)
  = storeEvents sessionId actorId (e :: events).
Proof. by destruct c. Qed.


(** An empty or missing result leaves the cache as it was. *)
Lemma displayEvents_empty_keeps_cache (c : container) (events : option (list Event.t))
    (sessionId actorId : option string) (st : state) :
  events = None \/ events = Some [] ->
  currentEventsData (displayEvents toLocaleString c events sessionId actorId st)
  = currentEventsData st.
Proof. by intros [-> | ->]; destruct c. Qed.

Lemma displayRecords_empty_keeps_cache (c : container)
    (records : option (list MemoryRecord.t)) (namespace title : string) (st : state) :
  records = None \/ records = Some [] ->
  currentRecordsData (displayRecords toLocaleString c records namespace title st)
  = currentRecordsData st.
Proof. by intros [-> | ->]; destruct c. Qed.

(** *** View and delete on an id that is not cached *)

(** Of a plain id the parser reads the whole as the attribute. *)
Lemma readAttribute_plain (s : string) :
  JsString.plain s = true -> JsString.readAttribute s = Some s.
Proof.
  unfold JsString.plain. intros [_ Hplain]%andb_prop.
  induction s as [|c s IH]; [done|].
  cbn [JsString.allPlain JsString.readAttribute] in *.
  apply andb_prop in Hplain as [Hc Hs]. rewrite (IH Hs). clear IH Hs.
  unfold JsString.plainChar in Hc. cbv zeta in *.
  destruct (Nat.eqb_spec (nat_of_ascii c) 34), (Nat.ltb_spec (nat_of_ascii c) 32),
    (Nat.eqb_spec (nat_of_ascii c) 38), (Nat.leb_spec 32 (nat_of_ascii c));
    cbn in Hc |- *; try done; lia.
Qed.

Lemma Cache_get_entry {V : Type} (properties : V -> list (string * json))
    (cache : gmap string V) (key : string) (v : V) :
  cache !! key = Some v -> Cache.get properties cache key = Cache.Entry v.
Proof. unfold Cache.get. by intros ->. Qed.

Lemma Cache_get_undefined {V : Type} (properties : V -> list (string * json))
    (cache : gmap string V) (key : string) :
  Cache.ordinary key = true ->
  cache !! key = None ->
  cache !! "__proto__" = None ->
  Cache.get properties cache key = Cache.Undefined.
Proof. unfold Cache.get, Cache.inherited. by intros -> -> ->. Qed.

(** X24.  For an id that names no member of [Object.prototype] and has no
    entry in the event cache, when no event was cached under [__proto__],
    the view action and the delete action on an event do nothing: no modal
    opens, no request is issued, the caches and the page stay as they were;
    and so for the record cache and the actions on a record.  This holds for
    the four functions and for the clicks that dispatch to them. *)
Theorem uncached_ordinary_id_is_a_noop (itemId : string) (st : state) :
  Cache.ordinary itemId = true ->
  (currentEventsData st !! itemId = None ->
   currentEventsData st !! "__proto__" = None ->
   noop st (showEventJson itemId st) /\
   noop st (confirmDeleteEvent itemId st) /\
   noop st (handleJsonViewClick (Some "event") (Some itemId) st) /\
   noop st (handleDeleteClick (Some "event") (Some itemId) st)) /\
  (currentRecordsData st !! itemId = None ->
   currentRecordsData st !! "__proto__" = None ->
   noop st (showRecordJson itemId st) /\
   noop st (confirmDeleteRecord itemId st) /\
   noop st (handleJsonViewClick (Some "record") (Some itemId) st) /\
   noop st (handleDeleteClick (Some "record") (Some itemId) st)).
Proof.
  intros Hordinary.
  change (handleJsonViewClick (Some "event") (Some itemId) st)
    with (showEventJson itemId st).
  change (handleDeleteClick (Some "event") (Some itemId) st)
    with (confirmDeleteEvent itemId st).
  change (handleJsonViewClick (Some "record") (Some itemId) st)
    with (showRecordJson itemId st).
  change (handleDeleteClick (Some "record") (Some itemId) st)
    with (confirmDeleteRecord itemId st).
  unfold showEventJson, confirmDeleteEvent, showRecordJson, confirmDeleteRecord.
  split; intros Hnone Hproto; rewrite (Cache_get_undefined _ _ _ Hordinary Hnone Hproto);
    auto using noop_consoleError.
Qed.

(** *** Rows and cache entries *)

Lemma itemIds_generateContentPreview (content metadata : option json) :
  itemIds (generateContentPreview content metadata) = [].
Proof.
  unfold generateContentPreview.
  destruct (negb (Json.hasKeys content) && negb (Json.hasKeys metadata)); [done|].
  destruct (JsString.truthy _); [|done].
  cbn. unfold escapedText. by destruct (JsString.parsedText _).
Qed.

Lemma itemIds_eventRow (e : Event.t) :
  itemIds (eventRow toLocaleString e) = [eventKey e; eventKey e].
Proof.
  unfold eventRow. cbn -[generateContentPreview].
  by rewrite itemIds_generateContentPreview.
Qed.


Lemma itemIds_eventsTable (events : list Event.t) :
  flat_map itemIds (eventsTable toLocaleString events)
  = flat_map (fun e => [eventKey e; eventKey e]) events.
Proof.
  unfold eventsTable. cbn -[eventRow]. rewrite !app_nil_r.
  induction events as [|e events IH]; [done|].
  cbn -[eventRow]. by rewrite itemIds_eventRow, IH.
Qed.


(** What is in the caches after the [forEach]. *)
Lemma storeEvents_is_Some (sessionId actorId : option string) (events : list Event.t)
    (key : string) :
  is_Some (storeEvents sessionId actorId events !! key) <->
  exists e, e ∈ events /\ eventKey e = key.
Proof.
  unfold storeEvents.
  enough (forall cache : gmap string cachedEvent,
             is_Some (foldl (fun cache e => <[eventKey e := CachedEvent e sessionId actorId]> cache)
                            cache events !! key)
             <-> is_Some (cache !! key) \/ exists e, e ∈ events /\ eventKey e = key) as H.
  { rewrite H, lookup_empty. split; [intros [[? [=]]|]|]; auto. }
  induction events as [|e events IH]; intros cache; simpl.
  - split; [auto|intros [|(e & He & _)]; [done|by apply elem_of_nil in He]].
  - rewrite IH, lookup_insert_is_Some. split.
    + intros [[Hk|[_ H]]|(e' & He' & Hk)]; [| |]; auto.
      * right. exists e. split; [apply list_elem_of_here|done].
      * right. exists e'. split; [by apply list_elem_of_further|done].
    + intros [H|(e' & He' & Hk)].
      * destruct (decide (eventKey e = key)); auto.
      * apply elem_of_cons in He' as [->|He']; eauto.
Qed.


Lemma storeEvents_dom (sessionId actorId : option string) (events : list Event.t) :
  dom (storeEvents sessionId actorId events) = list_to_set (eventKey <$> events).
Proof.
  apply set_eq. intros key.
  rewrite elem_of_dom, storeEvents_is_Some, elem_of_list_to_set, list_elem_of_fmap.
  split; intros (e & ? & ?); exists e; by split.
Qed.


Lemma innerHTML_setInnerHTML (c : container) (html forest : list node) (st : state) :
  innerHTML c (setInnerHTML c html st) = Some forest -> forest = html.
Proof.
  destruct c as [| |i|i]; cbn.
  - by intros [= <-].
  - by intros [= <-].
  - rewrite list_lookup_alter_eq. destruct (panes st !! i); cbn; [by intros [= <-]|done].
  - rewrite list_lookup_alter_eq. destruct (panes st !! i); cbn; [by intros [= <-]|done].
Qed.






End Handlers.

(** ** The session, step by step *)

Import Session.

(** C1 (the code departs from the claim).  After two events were listed, a
    new query of the same form answers with an empty list.  [displayEvents]
    returns before it resets [currentEventsData]: the container shows that no
    events were found and the cache still holds both events of the query
    before. *)
Theorem C1_empty_result_keeps_stale_entries :
  let st := eventsListed in
  let st' := executeGlobalListEvents toLocaleString
               (HttpOk (inr (EventsResult (Some [])))) st in
  dom (currentEventsData st) = {["e1"; "e2"]} /\
  globalEventsResults st' = infoAlert [Text "No events found."] /\
  currentEventsData st' = currentEventsData st /\
  is_Some (currentEventsData st' !! "e1").
Proof.
  cbv zeta. split; [by vm_compute|]. split; [by vm_compute|].
  split; [by vm_compute|]. vm_compute. eauto.
Qed.

(** C2 (counterexample).  A memory is selected and both caches hold
    entries; after the empty option is chosen, both still do. *)
Lemma C2_caches_survive_deselection :
  let st := recordsListed in
  let st' := handleMemorySelection toLocaleString namespacesTypeError
               None (NetworkError EmptyString) st in
  is_Some (currentMemory st) /\
  currentEventsData st <> ∅ /\
  currentRecordsData st <> ∅ /\
  ~ (currentEventsData st' = ∅ /\ currentRecordsData st' = ∅).
Proof.
  cbv zeta. split; [vm_compute; eauto|].
  assert (forall (A : Type) (m : gmap string A), is_Some (m !! "e1") -> m <> ∅) as He.
  { intros A m [x Hx] ->. by rewrite lookup_empty in Hx. }
  split; [apply He; vm_compute; eauto|].
  assert (forall (A : Type) (m : gmap string A), is_Some (m !! "r1") -> m <> ∅) as Hr.
  { intros A m [x Hx] ->. by rewrite lookup_empty in Hx. }
  split; [apply Hr; vm_compute; eauto|].
  intros [H _]. revert H. apply He. vm_compute. eauto.
Qed.

(** C3 (the code departs from the claim).  The search request fails with
    status 500 and the body [{detail: index unavailable}].
    [executeRetrieveMemoryRecords] throws the status line without reading the
    body, so the banner shows the status line and not the detail.  The record
    cache is left as it was. *)
Theorem C3_retrieve_banner_ignores_detail :
  let st := queryTyped in
  let st' := executeRetrieveMemoryRecords toLocaleString 0
               (HttpError 500 "Internal Server Error"
                  (inr (ErrorBody (Some (JStr "index unavailable"))))) st in
  innerHTML (RetrieveResults 0) st'
  = Some (showError "Error retrieving memory records: HTTP 500: Internal Server Error") /\
  containerText (RetrieveResults 0) st'
  = Some "Error retrieving memory records: HTTP 500: Internal Server Error" /\
  JsString.includes "Error retrieving memory records: HTTP 500: Internal Server Error"
                    "index unavailable" = false /\
  currentRecordsData st' = currentRecordsData st.
Proof. cbv zeta. repeat split; by vm_compute. Qed.

(** [executeAddEvent] is the one call that reads the body of a failed
    response: a [detail] that is a string and not empty is the message of
    the error it throws, whatever the status text. *)
Lemma detailOrStatusText_prefers_detail (status : nat) (statusText : string)
    (c : ascii) (message : string) :
  detailOrStatusText
    (HttpError status statusText (inr (ErrorBody (Some (JStr (String c message))))))
  = inl (String c message).
Proof. reflexivity. Qed.

(** The other calls throw the status line, whatever the body. *)
Lemma okBody_ignores_body {B : Type} (status : nat) (statusText : string)
    (body : string + errorBody) :
  okBody (B := B) (HttpError status statusText body)
  = inl (httpStatusLine status statusText).
Proof. reflexivity. Qed.

(** C4 (the code departs from the claim).  Two events are listed and the
    deletion of the first succeeds.  The entry leaves the cache, the other
    entry stays, the row leaves the table and only the DELETE is issued; but
    the count badge still reads 2: [executeDeleteEvent] looks for the badge
    under the element before [.table-responsive], and [displayEvents] puts
    the badge inside [.table-responsive], which has no element before it. *)
Theorem C4_event_badge_is_not_decremented :
  let st := eventsListed in
  let st' := executeDeleteEvent "e1" (Some "s1") (Some "alice") (HttpOk (inr JNull)) st in
  badgeText (globalEventsResults st) = Some "2 event(s)" /\
  currentEventsData st' !! "e1" = None /\
  currentEventsData st' !! "e2" = currentEventsData st !! "e2" /\
  flat_map itemIds (globalEventsResults st') = ["e2"; "e2"] /\
  requests st' =
    requests st ++
    [Request "DELETE" "/api/memories/mem-1/events/e1?session_id=s1&actor_id=alice" None] /\
  badgeText (globalEventsResults st') = Some "2 event(s)".
Proof. cbv zeta. repeat split; by vm_compute. Qed.

(** The sibling [executeDeleteRecord] does find its count, which
    [displayRecords] puts before [.table-responsive]. *)
Example record_count_is_rewritten :
  let st := recordsListed in
  let st' := executeDeleteRecord "r1" "/strategy/S1/" (HttpOk (inr JNull)) st in
  (innerHTML (MemoryRecordsResults 0) st ≫= textOfFirst (ByTag "small"))
  = Some "Namespace: /strategy/S1/ • Found 2 record(s)" /\
  (innerHTML (MemoryRecordsResults 0) st' ≫= textOfFirst (ByTag "small"))
  = Some "Namespace:  • Found 1 record(s)".
Proof. cbv zeta. split; by vm_compute. Qed.


(** C10 (the code departs from the claim).  A record named [constructor]
    is listed in the first tab; a search in the same tab then answers with
    another record, and [displayRecords] replaces the cache; the list form
    is opened again.  The row of [constructor] is still there and has no
    entry in the cache, yet its view button reports nothing missing: it
    writes the title of the JSON modal and hands the editor the member of
    [Object.prototype] that the lookup finds; and its delete button opens
    the confirmation, whose button issues a DELETE under the namespace
    [undefined].  So it is for an event: two events named [toString] are
    listed and the first is deleted; the view button of the row that is left
    writes the title, and its delete button leads to a second DELETE, under
    the session and the actor [undefined]. *)
Theorem C10_inherited_name_is_found :
  let listed :=
    executeListMemoryRecords toLocaleString 0
      (HttpOk (inr (RecordsResult (Some [record (Some "constructor")]))))
      (listMemoryRecords 0 selected) in
  let searched :=
    listMemoryRecords 0
      (executeRetrieveMemoryRecords toLocaleString 0
         (HttpOk (inr (RecordsResult (Some [record (Some "r1")]))))
         (updatePane 0 (setSearchQueryInput "facts") (retrieveMemoryRecords 0 listed))) in
  let twice :=
    executeGlobalListEvents toLocaleString
      (HttpOk (inr (EventsResult (Some [event "toString"; event "toString"]))))
      (setInputValue "global-actor-id" "alice"
         (setInputValue "global-session-id" "s1" selected)) in
  let once :=
    clickDeleteConfirm (HttpOk (inr JNull))
      (handleDeleteClick (Some "event") (Some "toString") twice) in
  ((exists p forest, panes searched !! 0 = Some p /\ recordsFormHidden p = false /\
                     innerHTML (MemoryRecordsResults 0) searched = Some forest /\
                     flat_map itemIds forest = ["constructor"; "constructor"]) /\
   currentRecordsData searched !! "constructor" = None /\
   (let viewed := handleJsonViewClick (Some "record") (Some "constructor") searched in
    texts viewed !! "json-field-name" = Some "Memory Record: constructor" /\
    jsonEditor viewed = Some (ShownBuiltin "constructor") /\
    consoleErrors viewed = consoleErrors searched) /\
   (let asked := handleDeleteClick (Some "record") (Some "constructor") searched in
    deleteModalShown asked = true /\
    requests (clickDeleteConfirm (HttpOk (inr JNull)) asked)
    = requests searched ++
      [Request "DELETE" "/api/memories/mem-1/records/constructor?namespace=undefined" None]))
  /\
  (flat_map itemIds (globalEventsResults once) = ["toString"; "toString"] /\
   currentEventsData once !! "toString" = None /\
   (let viewed := handleJsonViewClick (Some "event") (Some "toString") once in
    texts viewed !! "json-field-name" = Some "Event: toString" /\
    jsonEditor viewed = Some (ShownBuiltin "toString") /\
    consoleErrors viewed = consoleErrors once) /\
   (let asked := handleDeleteClick (Some "event") (Some "toString") once in
    deleteModalShown asked = true /\
    requests (clickDeleteConfirm (HttpOk (inr JNull)) asked)
    = requests once ++
      [Request "DELETE"
         "/api/memories/mem-1/events/toString?session_id=undefined&actor_id=undefined"
         None])).
Proof.
  cbv zeta. split.
  - split; [|repeat split; by vm_compute].
    eexists _, _. split; [by vm_compute|]. by vm_compute.
  - repeat split; by vm_compute.
Qed.

(** C6 (the code departs from the claim).  The selected memory has the id
    [team/a b].  The URL of the list request carries the id as it is, while
    the session and actor ids are escaped; the URL of a deletion for the same
    memory escapes it. *)
Theorem C6_memory_id_is_not_encoded :
  let st' := executeGlobalListEvents toLocaleString
               (HttpOk (inr (EventsResult (Some [event "e/1"]))))
               (setInputValue "global-session-id" "s 1" selected2) in
  JsString.encodeURIComponent "team/a b" = "team%2Fa%20b" /\
  last (requests st')
  = Some (Request "GET"
            "/api/memories/team/a b/events?session_id=s%201&actor_id=alice&max_results=50"
            None) /\
  last (requests (executeDeleteEvent "e/1" (Some "s 1") (Some "alice")
                    (HttpOk (inr JNull)) st'))
  = Some (Request "DELETE"
            "/api/memories/team%2Fa%20b/events/e%2F1?session_id=s%201&actor_id=alice"
            None).
Proof. cbv zeta. repeat split; by vm_compute. Qed.

(** ** The theorems above at a concrete input *)


Lemma C8_failed_deletion_alerts_and_keeps_state_witness :
  let st := recordsListed in
  let outcome : fetchOutcome json :=
    HttpError 503 "Service Unavailable" (inr (ErrorBody None)) in
  is_Some (currentMemory st) /\
  failed outcome /\
  (let st' := executeDeleteEvent "e1" (Some "s1") (Some "alice") outcome st in
   (exists message, alerts st' = alerts st ++ ["Error deleting event: " +:+ message]) /\
   sameClientState st st') /\
  (let st' := executeDeleteRecord "r1" "/strategy/S1/" outcome st in
   (exists message, alerts st' = alerts st ++ ["Error deleting memory record: " +:+ message]) /\
   sameClientState st st').
Proof.
  cbv zeta.
  assert (is_Some (currentMemory recordsListed)) as Hmemory by (vm_compute; eauto).
  assert (failed (B := json) (HttpError 503 "Service Unavailable" (inr (ErrorBody None))))
    as Hfailed by exact I.
  split; [exact Hmemory|]. split; [exact Hfailed|].
  exact (C8_failed_deletion_alerts_and_keeps_state "e1" "r1" "/strategy/S1/"
           (Some "s1") (Some "alice") _ recordsListed Hmemory Hfailed).
Defined.

Lemma uncached_ordinary_id_is_a_noop_witness :
  let st := recordsListed in
  Cache.ordinary "r1" = true /\
  currentEventsData st !! "r1" = None /\
  currentEventsData st !! "__proto__" = None /\
  noop st (handleJsonViewClick (Some "event") (Some "r1") st) /\
  noop st (handleDeleteClick (Some "event") (Some "r1") st).
Proof.
  cbv zeta.
  assert (Cache.ordinary "r1" = true) as Hordinary by reflexivity.
  assert (currentEventsData recordsListed !! "r1" = None) as He by (vm_compute; reflexivity).
  assert (currentEventsData recordsListed !! "__proto__" = None) as Hproto
    by (vm_compute; reflexivity).
  split; [exact Hordinary|]. split; [exact He|]. split; [exact Hproto|].
  destruct (proj1 (uncached_ordinary_id_is_a_noop "r1" recordsListed Hordinary) He Hproto)
    as (_ & _ & H1 & H2).
  split; assumption.
Defined.
(** * Further properties *)

(** ** The caches after a result *)


Lemma storeEvents_last_wins (sessionId actorId : option string)
    (before after : list Event.t) (e : Event.t) :
  (forall e', e' ∈ after -> eventKey e' <> eventKey e) ->
  storeEvents sessionId actorId (before ++ e :: after) !! eventKey e
  = Some (CachedEvent e sessionId actorId).
Proof.
  intros Hafter. unfold storeEvents. rewrite foldl_app. simpl.
  generalize (foldl (fun (cache : gmap string cachedEvent) e0 =>
                       <[eventKey e0 := CachedEvent e0 sessionId actorId]> cache)
                    ∅ before).
  intros cache.
  assert (forall cache' : gmap string cachedEvent,
             cache' !! eventKey e = Some (CachedEvent e sessionId actorId) ->
             foldl (fun cache e0 => <[eventKey e0 := CachedEvent e0 sessionId actorId]> cache)
                   cache' after !! eventKey e = Some (CachedEvent e sessionId actorId)) as H.
  { induction after as [|e' after IH]; intros cache' Hcache'; simpl; [done|].
    apply IH.
    - intros e'' He''. apply Hafter. by apply list_elem_of_further.
    - rewrite lookup_insert_ne; [done|]. apply Hafter, list_elem_of_here. }
  apply H. apply lookup_insert_eq.
Qed.

Lemma foldl_insert_size {A B : Type} (key : A -> string) (value : A -> B)
    (l : list A) (cache : gmap string B) :
  size (foldl (fun cache x => <[key x := value x]> cache) cache l) <= size cache + length l.
Proof.
  revert cache. induction l as [|x l IH]; intros cache; simpl; [lia|].
  etrans; [apply IH|].
  destruct (cache !! key x) eqn:Hx.
  - rewrite map_size_insert_Some by eauto. lia.
  - rewrite map_size_insert_None by done. lia.
Qed.


Section MoreHandlers.

Variable toLocaleString : json -> string.
Variable namespacesTypeError : string.

(** ** Listing events *)








Lemma Cache_count_size {V : Type} (cache : gmap string V) : Cache.count cache <= size cache.
Proof. unfold Cache.count. apply map_subseteq_size, delete_subseteq. Qed.

(** X3.  When several events of a result share an id, the lookup of that id
    answers the last of them; so the cache never has more keys than the
    table has rows, and the table has one row for each event of the result,
    in order.  So for every result whose interpolated fields are plain. *)
Theorem event_cache_keeps_the_last_of_an_id
    (c : container) (before after : list Event.t) (e : Event.t)
    (session actor : option string) (st : state) :
  Forall (fun e => plainEvent e = true) (before ++ e :: after) ->
  (forall e', e' ∈ after -> eventKey e' <> eventKey e) ->
  let events := before ++ e :: after in
  let st' := displayEvents toLocaleString c (Some events) session actor st in
  Cache.get eventProperties (currentEventsData st') (eventKey e)
  = Cache.Entry (CachedEvent e session actor) /\
  Cache.count (currentEventsData st') <= length events /\
  forall forest, innerHTML c st' = Some forest ->
                 flat_map itemIds forest = flat_map (fun e => [eventKey e; eventKey e]) events.
Proof.
  intros _ Hafter events st'.
  assert (exists e0 events0, events = e0 :: events0) as (e0 & events0 & Hevents).
  { subst events. destruct before; simpl; eauto. }
  subst st'. rewrite Hevents. rewrite displayEvents_replaces_cache. rewrite <- Hevents.
  split; [by apply Cache_get_entry, storeEvents_last_wins|]. split.
  - etrans; [apply Cache_count_size|]. unfold storeEvents.
    etrans; [apply (foldl_insert_size eventKey (fun e => CachedEvent e session actor))|].
    by rewrite map_size_empty.
  - intros forest Hforest. rewrite Hevents in Hforest. unfold displayEvents in Hforest.
    apply innerHTML_setInnerHTML in Hforest as ->. rewrite <- Hevents.
    apply itemIds_eventsTable.
Qed.

(** X4.  A listing whose session id or actor id is blank once trimmed shows
    the warning and stops there: no request is issued, whatever the service
    would have answered, and the caches, the recorded session and actor and
    the modals stay as they were. *)
Theorem blank_listing_form_issues_no_request
    (outcome : fetchOutcome eventsResult) (memory : Memory.t) (st : state) :
  currentMemory st = Some memory ->
  JsString.truthy (JsString.trim (inputValue "global-session-id" st)) = false \/
  JsString.truthy (JsString.trim (inputValue "global-actor-id" st)) = false ->
  executeGlobalListEvents toLocaleString outcome st
  = setGlobalEventsResults (showWarning "Please enter both Session ID and Actor ID.") st.
Proof.
  intros Hmemory Hblank.
  unfold executeGlobalListEvents, executeApiCall. rewrite Hmemory.
  cbn [resultsDiv validation apiCall displayFunction loadingMessage errorPrefix innerHTML].
  by destruct Hblank as [-> | ->]; rewrite ?orb_true_r.
Qed.

End MoreHandlers.
Section MoreWorkflows.

Variable toLocaleString : json -> string.

(** ** The forms of a strategy tab *)

(** X5.  In a strategy tab, a listing with a blank namespace and a search
    with a blank query or a blank namespace only write the warning into
    their results container: no request is issued, and the globals, the
    other containers and the fields stay as they were. *)
Theorem blank_record_forms_issue_no_request
    (strategyIndex : nat) (outcome : fetchOutcome recordsResult)
    (memory : Memory.t) (s : strategy) (p : pane) (st : state) :
  currentStrategy strategyIndex st = Found memory s ->
  panes st !! strategyIndex = Some p ->
  (JsString.truthy (JsString.trim (namespaceInput p)) = false ->
   executeListMemoryRecords toLocaleString strategyIndex outcome st
   = setInnerHTML (MemoryRecordsResults strategyIndex)
       (showWarning "Please enter a namespace.") st)
  /\
  (JsString.truthy (JsString.trim (searchQueryInput p)) = false \/
   JsString.truthy (JsString.trim (retrieveNamespaceInput p)) = false ->
   executeRetrieveMemoryRecords toLocaleString strategyIndex outcome st
   = setInnerHTML (RetrieveResults strategyIndex)
       (showWarning "Please enter both search query and namespace.") st).
Proof.
  intros Hstrategy Hpane. split.
  - intros Hblank. unfold executeListMemoryRecords, executeApiCall. rewrite Hstrategy.
    cbn [resultsDiv validation apiCall displayFunction loadingMessage errorPrefix].
    assert (innerHTML (MemoryRecordsResults strategyIndex) st = Some (recordsResults p)) as ->
      by (cbn; by rewrite Hpane).
    unfold paneInput at 1. rewrite Hpane.
    cbn [fmap option_fmap option_map default id]. by rewrite Hblank.
  - intros Hblank. unfold executeRetrieveMemoryRecords, executeApiCall. rewrite Hstrategy.
    cbn [resultsDiv validation apiCall displayFunction loadingMessage errorPrefix].
    assert (innerHTML (RetrieveResults strategyIndex) st = Some (retrieveResults p)) as ->
      by (cbn; by rewrite Hpane).
    unfold paneInput at 1 2. rewrite Hpane.
    cbn [fmap option_fmap option_map default id].
    by destruct Hblank as [-> | ->]; rewrite ?orb_true_r.
Qed.

(** ** Adding an event *)

(** The state an added event ends in when its content is not blank. *)
Lemma executeAddEvent_valid (outcome : fetchOutcome addEventResult)
    (memory : Memory.t) (st : state) :
  currentMemory st = Some memory ->
  JsString.truthy (JsString.trim (inputValue "add-event-content" st)) = true ->
  let body :=
    JObj [("content", JStr (JsString.trim (inputValue "add-event-content" st)));
          ("contentType", JStr (inputValue "add-event-type" st));
          ("role", JStr (inputValue "add-event-role" st));
          ("actorId", JStr (orDefault (JsString.trim (inputValue "add-event-actor" st))));
          ("sessionId", JStr (orDefault (JsString.trim (inputValue "add-event-session" st))))] in
  let sent := issue (Request "POST" (addEventUrl (Memory.id memory)) (Some body))
                    (setAddEventResults (showLoading "Creating event...") st) in
  executeAddEvent outcome st
  = match detailOrStatusText outcome with
    | inr result =>
        setInputValue "add-event-content" EmptyString
          (setAddEventResults
             [Elem "div" ["alert"; "alert-success"] []
                [icon ["bi"; "bi-check-circle"; "me-2"];
                 Text (JsString.ofProperty (resultMessage result)
                       +:+ " (Event ID: "
                       +:+ JsString.ofProperty (resultEventId result) +:+ ")")]]
             sent)
    | inl message =>
        setAddEventResults (showError ("Error creating event: " +:+ message))
          (consoleError "Error creating event:" sent)
    end.
Proof.
  intros Hmemory Hcontent. cbv zeta.
  unfold executeAddEvent, executeApiCall. rewrite Hmemory.
  cbn [resultsDiv validation apiCall displayFunction loadingMessage errorPrefix innerHTML].
  rewrite Hcontent. cbn [negb].
  by destruct (detailOrStatusText outcome).
Qed.

(** X6.  When adding an event fails with a response whose body carries a
    [detail] that is a string, not empty and without markup characters, the
    banner shows that detail after the prefix, whatever the status line;
    the typed content stays in its field, and the caches are not
    touched. *)
Theorem failed_add_event_shows_detail_and_keeps_content
    (status : nat) (statusText : string) (c : ascii) (message : string)
    (memory : Memory.t) (st : state) :
  currentMemory st = Some memory ->
  JsString.truthy (JsString.trim (inputValue "add-event-content" st)) = true ->
  JsString.plainText (String c message) = true ->
  let st' := executeAddEvent
               (HttpError status statusText
                  (inr (ErrorBody (Some (JStr (String c message)))))) st in
  addEventResults st' = showError ("Error creating event: " +:+ String c message) /\
  inputValue "add-event-content" st' = inputValue "add-event-content" st /\
  currentEventsData st' = currentEventsData st /\
  currentRecordsData st' = currentRecordsData st.
Proof.
  intros Hmemory Hcontent _ st'. subst st'.
  by rewrite (executeAddEvent_valid _ memory st Hmemory Hcontent).
Qed.

(** X7.  When adding an event succeeds with an answer whose message and
    event id are without markup characters, one POST is issued to the
    records path of the current memory; its body carries the trimmed
    content, and the word default for an actor or a session left blank;
    then the content field is emptied. *)
Theorem added_event_posts_trimmed_content_and_clears_field
    (result : addEventResult) (memory : Memory.t) (st : state) :
  currentMemory st = Some memory ->
  JsString.truthy (JsString.trim (inputValue "add-event-content" st)) = true ->
  JsString.plainText (JsString.ofProperty (resultMessage result) +:+ " (Event ID: "
                      +:+ JsString.ofProperty (resultEventId result) +:+ ")") = true ->
  let st' := executeAddEvent (HttpOk (inr result)) st in
  inputValue "add-event-content" st' = EmptyString /\
  exists body,
    requests st' = requests st ++ [Request "POST" (addEventUrl (Memory.id memory)) (Some body)] /\
    Json.get body "content"
    = Some (JStr (JsString.trim (inputValue "add-event-content" st))) /\
    Json.get body "actorId"
    = Some (JStr (if JsString.truthy (JsString.trim (inputValue "add-event-actor" st))
                  then JsString.trim (inputValue "add-event-actor" st) else "default")) /\
    Json.get body "sessionId"
    = Some (JStr (if JsString.truthy (JsString.trim (inputValue "add-event-session" st))
                  then JsString.trim (inputValue "add-event-session" st) else "default")).
Proof.
  intros Hmemory Hcontent _ st'. subst st'.
  rewrite (executeAddEvent_valid _ memory st Hmemory Hcontent).
  cbn [detailOrStatusText]. split.
  - unfold inputValue, setInputValue. cbn. by rewrite lookup_insert_eq.
  - eexists. split; [reflexivity|]. by repeat split.
Qed.

(** ** A listing that fails *)


(** ** Without a memory *)

(** X9.  While no memory is current, adding an event, the three listings and
    searches, the two form buttons of a tab and the two deletions do nothing
    but write a line on the console: none issues a request or changes the
    page, the caches or the modals, whatever the service would answer. *)
Theorem without_memory_nothing_is_requested
    (strategyIndex : nat) (itemId scope : string) (session actor : option string)
    (added : fetchOutcome addEventResult) (events : fetchOutcome eventsResult)
    (records : fetchOutcome recordsResult) (deletion : fetchOutcome json) (st : state) :
  currentMemory st = None ->
  noop st (executeAddEvent added st) /\
  noop st (executeGlobalListEvents toLocaleString events st) /\
  noop st (executeListMemoryRecords toLocaleString strategyIndex records st) /\
  noop st (executeRetrieveMemoryRecords toLocaleString strategyIndex records st) /\
  noop st (listMemoryRecords strategyIndex st) /\
  noop st (retrieveMemoryRecords strategyIndex st) /\
  noop st (executeDeleteEvent itemId session actor deletion st) /\
  noop st (executeDeleteRecord itemId scope deletion st).
Proof.
  intros Hnone.
  unfold executeAddEvent, executeGlobalListEvents, executeListMemoryRecords,
    executeRetrieveMemoryRecords, listMemoryRecords, retrieveMemoryRecords,
    executeDeleteEvent, executeDeleteRecord, currentStrategy.
  rewrite Hnone. repeat split.
Qed.

End MoreWorkflows.
Section MoreDeleting.

Variable toLocaleString : json -> string.

(** ** Deleting *)

Lemma removeEventRow_frame (eventId : string) (st : state) :
  let st' := removeEventRow eventId st in
  currentMemory st' = currentMemory st /\
  currentEventsData st' = currentEventsData st /\
  currentRecordsData st' = currentRecordsData st /\
  panes st' = panes st /\
  requests st' = requests st /\ alerts st' = alerts st /\ toasts st' = toasts st.
Proof.
  unfold removeEventRow. cbn.
  destruct (Dom.querySelector _ _); [|done].
  by destruct (_ ≫= _).
Qed.

Lemma setInnerHTML_frame (c : container) (html : list node) (st : state) :
  let st' := setInnerHTML c html st in
  currentMemory st' = currentMemory st /\
  currentEventsData st' = currentEventsData st /\
  currentRecordsData st' = currentRecordsData st /\
  requests st' = requests st /\ alerts st' = alerts st /\ toasts st' = toasts st.
Proof. by destruct c. Qed.

Lemma removeRecordRow_frame (recordId : string) (st : state) :
  let st' := removeRecordRow recordId st in
  currentMemory st' = currentMemory st /\
  currentEventsData st' = currentEventsData st /\
  currentRecordsData st' = currentRecordsData st /\
  requests st' = requests st /\ alerts st' = alerts st /\ toasts st' = toasts st.
Proof.
  unfold removeRecordRow.
  destruct (findRecordRow recordId st) as [[c row]|]; [|done].
  cbv zeta. destruct (_ ≫= _); apply setInnerHTML_frame.
Qed.


(** *** The row that leaves an event table *)






End MoreDeleting.

(** ** The addresses of the deletions *)

Lemma hexDigit_code (k : nat) :
  k < 16 -> nat_of_ascii (JsString.hexDigit k) = if k <? 10 then 48 + k else 55 + k.
Proof.
  intros Hk. do 16 (destruct k as [|k]; [reflexivity|]). lia.
Qed.

Lemma hexDigit_inj (j k : nat) :
  j < 16 -> k < 16 -> JsString.hexDigit j = JsString.hexDigit k -> j = k.
Proof.
  intros Hj Hk Heq. apply (f_equal nat_of_ascii) in Heq.
  rewrite !hexDigit_code in Heq by done.
  destruct (j <? 10) eqn:Hj10, (k <? 10) eqn:Hk10;
    apply Nat.ltb_lt in Hj10 || apply Nat.ltb_ge in Hj10;
    apply Nat.ltb_lt in Hk10 || apply Nat.ltb_ge in Hk10; lia.
Qed.

Lemma nat_of_ascii_bound (c : ascii) : nat_of_ascii c < 256.
Proof. destruct c as [[] [] [] [] [] [] [] []]; vm_compute; lia. Qed.

Lemma percent_is_reserved (c : ascii) :
  JsString.isUnreserved c = true -> c <> "%"%char.
Proof. by intros H ->. Qed.

(** An encoded component holds none of the separators of an address. *)
Lemma encodeURIComponent_no_separator (d : ascii) (s : string) :
  JsString.hasChar d "/?&=#" = true ->
  JsString.hasChar d (JsString.encodeURIComponent s) = false.
Proof.
  intros Hd. induction s as [|c s IH]; [done|].
  cbn [JsString.encodeURIComponent].
  destruct (JsString.isUnreserved c) eqn:Hc; cbn [JsString.hasChar]; rewrite IH.
  - rewrite orb_false_r. apply Ascii.eqb_neq. intros ->.
    revert Hc. cbn [JsString.hasChar] in Hd. rewrite orb_false_r in Hd.
    repeat (apply orb_prop in Hd as [Hd|Hd]); apply Ascii.eqb_eq in Hd as ->; by vm_compute.
  - rewrite !orb_false_r.
    assert (nat_of_ascii c / 16 < 16) as Hhi
      by (apply Nat.Div0.div_lt_upper_bound; pose proof (nat_of_ascii_bound c); lia).
    assert (nat_of_ascii c mod 16 < 16) as Hlo by (apply Nat.mod_upper_bound; lia).
    cbn [JsString.hasChar] in Hd. rewrite orb_false_r in Hd.
    assert (forall k, k < 16 -> Ascii.eqb d (JsString.hexDigit k) = false) as Hhex.
    { intros k Hk. apply Ascii.eqb_neq. intros ->. revert Hd.
      do 16 (destruct k as [|k]; [by vm_compute|]). lia. }
    rewrite !Hhex by done.
    repeat (apply orb_prop in Hd as [Hd|Hd]); apply Ascii.eqb_eq in Hd as ->; by vm_compute.
Qed.

Lemma encodeURIComponent_inj (s s' : string) :
  JsString.encodeURIComponent s = JsString.encodeURIComponent s' -> s = s'.
Proof.
  revert s'. induction s as [|c s IH]; intros [|c' s'].
  - done.
  - cbn. by destruct (JsString.isUnreserved c').
  - cbn. by destruct (JsString.isUnreserved c).
  - cbn [JsString.encodeURIComponent].
    destruct (JsString.isUnreserved c) eqn:Hc, (JsString.isUnreserved c') eqn:Hc'.
    + intros [= -> ?]. f_equal. by apply IH.
    + intros [= -> _]. done.
    + intros [= <- _]. done.
    + cbv zeta.
      pose proof (nat_of_ascii_bound c) as Hb. pose proof (nat_of_ascii_bound c') as Hb'.
      pose proof (Nat.div_mod_eq (nat_of_ascii c) 16) as Hn.
      pose proof (Nat.div_mod_eq (nat_of_ascii c') 16) as Hn'.
      assert (nat_of_ascii c / 16 < 16) as Hhi16
        by (apply Nat.Div0.div_lt_upper_bound; lia).
      assert (nat_of_ascii c' / 16 < 16) as Hhi16'
        by (apply Nat.Div0.div_lt_upper_bound; lia).
      assert (nat_of_ascii c mod 16 < 16) as Hlo16 by (apply Nat.mod_upper_bound; lia).
      assert (nat_of_ascii c' mod 16 < 16) as Hlo16' by (apply Nat.mod_upper_bound; lia).
      set (hi := nat_of_ascii c / 16) in *. set (lo := nat_of_ascii c mod 16) in *.
      set (hi' := nat_of_ascii c' / 16) in *. set (lo' := nat_of_ascii c' mod 16) in *.
      clearbody hi lo hi' lo'.
      intros [= Hhi Hlo ?]. f_equal; [|by apply IH].
      apply hexDigit_inj in Hhi; [|done..]. apply hexDigit_inj in Hlo; [|done..].
      rewrite <- (ascii_nat_embedding c), <- (ascii_nat_embedding c'). f_equal. lia.
Qed.

(** Two strings without a separator that are followed by it end at the
    same place. *)
Lemma split_at_separator (d : ascii) (a a' r r' : string) :
  JsString.hasChar d a = false -> JsString.hasChar d a' = false ->
  a +:+ String d r = a' +:+ String d r' -> a = a' /\ r = r'.
Proof.
  revert a'. induction a as [|c a IH]; intros [|c' a']; cbn [JsString.hasChar].
  - by intros _ _ [= ->].
  - rewrite append_cons. intros _ [Hd _]%orb_false_elim [= <- _].
    by rewrite Ascii.eqb_refl in Hd.
  - rewrite append_cons. intros [Hd _]%orb_false_elim _ [= -> _].
    by rewrite Ascii.eqb_refl in Hd.
  - rewrite !append_cons. intros [_ Ha]%orb_false_elim [_ Ha']%orb_false_elim [= -> Heq].
    destruct (IH a' Ha Ha' Heq) as [-> ->]. done.
Qed.

(** X12.  The address of the deletion of an event determines the memory,
    the event, the session and the actor it names: two deletions with the
    same address name the same four, a missing session or actor being
    written as [null]. *)
Theorem event_deletion_address_names_one_event
    (memoryId eventId memoryId' eventId' : string)
    (session actor session' actor' : option string) :
  deleteEventUrl memoryId eventId session actor
  = deleteEventUrl memoryId' eventId' session' actor' ->
  memoryId = memoryId' /\ eventId = eventId' /\
  JsString.ofNullable session = JsString.ofNullable session' /\
  JsString.ofNullable actor = JsString.ofNullable actor'.
Proof.
  unfold deleteEventUrl. rewrite !append_cons. intros Heq.
  injection Heq as Heq. change (EmptyString +:+ ?s) with s in Heq.
  apply split_at_separator in Heq as [Hm Heq];
    [|by apply encodeURIComponent_no_separator..].
  rewrite ?append_cons in Heq. injection Heq as Heq.
  change (EmptyString +:+ ?s) with s in Heq.
  apply split_at_separator in Heq as [He Heq];
    [|by apply encodeURIComponent_no_separator..].
  rewrite ?append_cons in Heq. injection Heq as Heq.
  change (EmptyString +:+ ?s) with s in Heq.
  apply split_at_separator in Heq as [Hs Heq];
    [|by apply encodeURIComponent_no_separator..].
  rewrite ?append_cons in Heq. injection Heq as Heq.
  change (EmptyString +:+ ?s) with s in Heq.
  by repeat split; apply encodeURIComponent_inj.
Qed.

(** X13.  The address of the deletion of a memory record determines the
    memory, the record and the namespace it names. *)
Theorem record_deletion_address_names_one_record
    (memoryId recordId scope memoryId' recordId' scope' : string) :
  deleteRecordUrl memoryId recordId scope = deleteRecordUrl memoryId' recordId' scope' ->
  memoryId = memoryId' /\ recordId = recordId' /\ scope = scope'.
Proof.
  unfold deleteRecordUrl. rewrite !append_cons. intros Heq.
  injection Heq as Heq. change (EmptyString +:+ ?s) with s in Heq.
  apply split_at_separator in Heq as [Hm Heq];
    [|by apply encodeURIComponent_no_separator..].
  rewrite ?append_cons in Heq. injection Heq as Heq.
  change (EmptyString +:+ ?s) with s in Heq.
  apply split_at_separator in Heq as [He Heq];
    [|by apply encodeURIComponent_no_separator..].
  rewrite ?append_cons in Heq. injection Heq as Heq.
  change (EmptyString +:+ ?s) with s in Heq.
  by repeat split; apply encodeURIComponent_inj.
Qed.

Section MoreRecords.

Variable toLocaleString : json -> string.

(** ** Listing and deleting memory records *)




Lemma executeDeleteRecord_requests (recordId scope : string)
    (outcome : fetchOutcome json) (memory : Memory.t) (st : state) :
  currentMemory st = Some memory ->
  requests (executeDeleteRecord recordId scope outcome st)
  = requests st ++
    [Request "DELETE" (deleteRecordUrl (Memory.id memory) recordId scope) None].
Proof.
  intros Hmemory. unfold executeDeleteRecord. rewrite Hmemory. cbv zeta.
  destruct (okBody outcome); [done|].
  unfold removeRecordRow.
  destruct (findRecordRow _ _) as [[c row]|]; [|done].
  cbv zeta. by destruct (_ ≫= _); destruct c.
Qed.


End MoreRecords.

Section MoreStrategies.

Variable toLocaleString : json -> string.
Variable namespacesTypeError : string.

(** ** The tabs of the strategies and their namespace fields *)








End MoreStrategies.

Section MoreSelecting.

Variable toLocaleString : json -> string.
Variable namespacesTypeError : string.

(** ** Opening the form of a tab *)





(** ** Loading the details of a memory *)

Lemma hidden_showElement (id shownId : string) (st : state) :
  id ∈ hidden (showElement shownId st) <-> id ∈ hidden st /\ id <> shownId.
Proof.
  change (hidden (showElement shownId st)) with (hidden st ∖ {[shownId]}).
  by rewrite elem_of_difference, elem_of_singleton.
Qed.

Lemma hidden_hideElement (id hiddenId : string) (st : state) :
  id ∈ hidden (hideElement hiddenId st) <-> id = hiddenId \/ id ∈ hidden st.
Proof.
  change (hidden (hideElement hiddenId st)) with ({[hiddenId]} ∪ hidden st).
  by rewrite elem_of_union, elem_of_singleton.
Qed.

Lemma showOptional_hidden (value : option string) (textId blockId id : string)
    (st : state) :
  id <> blockId ->
  id ∈ hidden (showOptional value textId blockId st) <-> id ∈ hidden st.
Proof.
  intros Hne. unfold showOptional.
  destruct value as [text|]; [destruct (JsString.truthy text)|].
  - rewrite hidden_showElement. change (hidden (setText textId text st)) with (hidden st).
    tauto.
  - rewrite hidden_hideElement. tauto.
  - rewrite hidden_hideElement. tauto.
Qed.

Lemma showOptional_frame (value : option string) (textId blockId : string) (st : state) :
  let st' := showOptional value textId blockId st in
  requests st' = requests st /\ currentMemory st' = currentMemory st /\
  panes st' = panes st /\ namespaceTimers st' = namespaceTimers st /\
  currentEventsData st' = currentEventsData st /\
  currentRecordsData st' = currentRecordsData st.
Proof.
  unfold showOptional. by destruct value as [text|]; [destruct (JsString.truthy text)|].
Qed.

Lemma displayStrategies_frame (strategies : list strategy) (st st' : state) :
  displayStrategies namespacesTypeError strategies st = inr st' ->
  hidden st' = hidden st /\ currentMemory st' = currentMemory st /\
  requests st' = requests st /\ texts st' = texts st /\
  currentEventsData st' = currentEventsData st /\
  currentRecordsData st' = currentRecordsData st.
Proof.
  unfold displayStrategies. destruct strategies as [|s strategies].
  - by intros [= <-].
  - destruct (forallb _ _); [|done]. by intros [= <-].
Qed.

Lemma displayStrategies_throws (strategies : list strategy) (st : state) :
  (exists message, displayStrategies namespacesTypeError strategies st = inl message) <->
  exists s, s ∈ strategies /\ namespaces s = None.
Proof.
  unfold displayStrategies. split.
  - intros [message Hthrown]. revert Hthrown.
    destruct strategies as [|s0 strategies]; [done|].
    destruct (forallb _ (s0 :: strategies)) eqn:Hall; [done|]. intros _.
    apply not_true_iff_false in Hall. rewrite forallb_forall in Hall.
    destruct (decide (Exists (fun s => namespaces s = None) (s0 :: strategies)))
      as [Hex|Hnone].
    + apply Exists_exists in Hex as (s & Hin & Hs). by exists s.
    + exfalso. apply Hall. intros s Hin.
      destruct (namespaces s) eqn:Hs; [done|].
      exfalso. apply Hnone, Exists_exists. exists s.
      split; [by apply list_elem_of_In|done].
  - intros (s & Hin & Hs). destruct strategies as [|s0 strategies];
      [by apply elem_of_nil in Hin|].
    destruct (forallb _ (s0 :: strategies)) eqn:Hall; [|by eexists].
    rewrite forallb_forall in Hall. apply list_elem_of_In in Hin.
    specialize (Hall s Hin). by rewrite Hs in Hall.
Qed.

Lemma showOptional_texts (value : option string) (textId blockId id : string)
    (st : state) :
  id <> textId ->
  texts (showOptional value textId blockId st) !! id = texts st !! id.
Proof.
  intros Hne. unfold showOptional.
  destruct value as [text|]; [destruct (JsString.truthy text)|]; [|done..].
  change (texts (showElement blockId (setText textId text st)))
    with (<[textId := text]> (texts st)).
  by apply lookup_insert_ne.
Qed.

(** What [displayMemoryDetails] has written of the overview when it
    returns, and also when it throws. *)
Lemma displayMemoryDetails_overview (memory : Memory.t) (thrown : option string)
    (st st' : state) :
  displayMemoryDetails toLocaleString namespacesTypeError memory st = (thrown, st') ->
  requests st' = requests st /\
  currentMemory st' = currentMemory st /\
  texts st' !! "detail-id" = Some (Memory.id memory) /\
  forall id, id <> "memory-description" -> id <> "detail-encryption" ->
             id <> "detail-execution" ->
             id ∈ hidden st' <-> id ∈ hidden st.
Proof.
  unfold displayMemoryDetails. cbv zeta.
  match goal with
  | |- context [displayStrategies _ _ ?w] => set (written := w)
  end.
  assert (requests written = requests st /\
          currentMemory written = currentMemory st /\
          texts written !! "detail-id" = Some (Memory.id memory) /\
          forall id, id <> "memory-description" -> id <> "detail-encryption" ->
                     id <> "detail-execution" ->
                     id ∈ hidden written <-> id ∈ hidden st) as Hwritten.
  { subst written. split; [|split; [|split]].
    - rewrite (proj1 (showOptional_frame _ _ _ _)).
      rewrite (proj1 (showOptional_frame _ _ _ _)).
      change (requests (setText ?i ?t ?st0)) with (requests st0).
      change (requests (setText ?i ?t ?st0)) with (requests st0).
      by rewrite (proj1 (showOptional_frame _ _ _ _)).
    - rewrite (proj1 (proj2 (showOptional_frame _ _ _ _))).
      rewrite (proj1 (proj2 (showOptional_frame _ _ _ _))).
      change (currentMemory (setText ?i ?t ?st0)) with (currentMemory st0).
      change (currentMemory (setText ?i ?t ?st0)) with (currentMemory st0).
      by rewrite (proj1 (proj2 (showOptional_frame _ _ _ _))).
    - rewrite showOptional_texts by done. rewrite showOptional_texts by done.
      change (texts (setText ?i ?t ?st0)) with (<[i := t]> (texts st0)).
      rewrite lookup_insert_ne by done. apply lookup_insert_eq.
    - intros id H1 H2 H3.
      assert (forall i t st0, hidden (setText i t st0) = hidden st0) as Htext by done.
      assert (forall i t st0, hidden (setClassName i t st0) = hidden st0) as Hclass by done.
      rewrite showOptional_hidden by done.
      rewrite showOptional_hidden by done. rewrite !Htext.
      rewrite showOptional_hidden by done. rewrite !Htext, Hclass, !Htext.
      reflexivity. }
  destruct (displayStrategies _ _ written) as [message|shown] eqn:Hdisplay.
  - intros [= <- <-]. exact Hwritten.
  - intros [= <- <-].
    apply displayStrategies_frame in Hdisplay as (Hhidden & Hmemory & Hrequests & Htexts & _).
    rewrite Hhidden, Hmemory, Hrequests, Htexts. exact Hwritten.
Qed.

(** When [displayMemoryDetails] throws, the tabs and the pending timers
    are as they were, and the error is the one of a strategy without
    namespaces. *)
Lemma displayMemoryDetails_thrown (memory : Memory.t) (message : string)
    (st st' : state) :
  displayMemoryDetails toLocaleString namespacesTypeError memory st = (Some message, st') ->
  message = namespacesTypeError /\
  panes st' = panes st /\ namespaceTimers st' = namespaceTimers st.
Proof.
  unfold displayMemoryDetails. cbv zeta.
  match goal with
  | |- context [displayStrategies _ _ ?w] => set (written := w)
  end.
  assert (panes written = panes st /\ namespaceTimers written = namespaceTimers st)
    as [Hpanes Htimers].
  { subst written. split.
    - rewrite (proj1 (proj2 (proj2 (showOptional_frame _ _ _ _)))).
      rewrite (proj1 (proj2 (proj2 (showOptional_frame _ _ _ _)))).
      change (panes (setText ?i ?t ?st0)) with (panes st0).
      change (panes (setText ?i ?t ?st0)) with (panes st0).
      by rewrite (proj1 (proj2 (proj2 (showOptional_frame _ _ _ _)))).
    - rewrite (proj1 (proj2 (proj2 (proj2 (showOptional_frame _ _ _ _))))).
      rewrite (proj1 (proj2 (proj2 (proj2 (showOptional_frame _ _ _ _))))).
      change (namespaceTimers (setText ?i ?t ?st0)) with (namespaceTimers st0).
      change (namespaceTimers (setText ?i ?t ?st0)) with (namespaceTimers st0).
      by rewrite (proj1 (proj2 (proj2 (proj2 (showOptional_frame _ _ _ _))))). }
  destruct (displayStrategies _ _ written) as [thrown|shown] eqn:Hdisplay; [|done].
  intros [= <- <-]. split; [|done].
  unfold displayStrategies in Hdisplay.
  destruct (default [] (Memory.strategies memory)) as [|s0 strategies]; [done|].
  destruct (forallb _ _); [done|]. by injection Hdisplay as <-.
Qed.

(** X18.  However the load of the details of a memory ends, its request
    was issued once, the loading notice and the welcome message are hidden,
    and exactly one of the detail panel and the error panel is shown. *)
Theorem details_or_error_is_shown
    (memoryId : string) (outcome : fetchOutcome Memory.t) (st : state) :
  let st' := loadMemoryDetails toLocaleString namespacesTypeError memoryId outcome st in
  requests st' = requests st ++ [Request "GET" (memoryUrl memoryId) None] /\
  "loading-memory" ∈ hidden st' /\
  "welcome-message" ∈ hidden st' /\
  ("memory-details" ∈ hidden st' <-> "error-memory" ∉ hidden st').
Proof.
  cbv zeta. unfold loadMemoryDetails. cbv zeta.
  destruct (okBody outcome) as [message|memory].
  - split; [reflexivity|].
    rewrite !hidden_showElement, !hidden_hideElement.
    change (hidden (setText ?i ?t ?st0)) with (hidden st0).
    change (hidden (consoleError ?l ?st0)) with (hidden st0).
    change (hidden (issue ?r ?st0)) with (hidden st0).
    rewrite !hidden_showElement, !hidden_hideElement.
    intuition (try done; auto 10).
  - destruct (displayMemoryDetails _ _ _ _) as [thrown st'] eqn:Hdisplay.
    apply displayMemoryDetails_overview in Hdisplay as (Hrequests & _ & _ & Hframe).
    pose proof (Hframe "welcome-message" ltac:(done) ltac:(done) ltac:(done)) as Hw.
    pose proof (Hframe "error-memory" ltac:(done) ltac:(done) ltac:(done)) as He.
    pose proof (Hframe "memory-details" ltac:(done) ltac:(done) ltac:(done)) as Hd.
    change (hidden (setCurrentMemory ?m ?st0)) with (hidden st0) in Hw, He, Hd.
    change (hidden (issue ?r ?st0)) with (hidden st0) in Hw, He, Hd.
    rewrite !hidden_showElement, !hidden_hideElement in Hw, He, Hd.
    clear Hframe.
    destruct thrown as [message|].
    + split; [exact Hrequests|].
      rewrite !hidden_showElement, !hidden_hideElement.
      change (hidden (setText ?i ?t ?st0)) with (hidden st0).
      change (hidden (consoleError ?l ?st0)) with (hidden st0).
      clear Hrequests. intuition (try done; auto 10).
    + split; [exact Hrequests|].
      rewrite !hidden_showElement, !hidden_hideElement.
      clear Hrequests. intuition (try done; auto 10).
Qed.

(** X19.  When the details of a memory cannot be fetched, the error panel
    shows the message of the failure and nothing else of the session moves:
    the memory that was current stays current, with its tabs, its pending
    timers and both caches. *)
Theorem failed_load_keeps_the_current_memory
    (memoryId message : string) (outcome : fetchOutcome Memory.t) (st : state) :
  okBody outcome = inl message ->
  let st' := loadMemoryDetails toLocaleString namespacesTypeError memoryId outcome st in
  texts st' !! "error-message" = Some message /\
  ("error-memory" ∉ hidden st') /\
  currentMemory st' = currentMemory st /\
  panes st' = panes st /\
  namespaceTimers st' = namespaceTimers st /\
  currentEventsData st' = currentEventsData st /\
  currentRecordsData st' = currentRecordsData st.
Proof.
  intros Hfailed. cbv zeta. unfold loadMemoryDetails. cbv zeta. rewrite Hfailed.
  split; [apply lookup_insert_eq|]. split; [|done].
  rewrite hidden_showElement. tauto.
Qed.

(** X20.  When the details of a memory are fetched but one of its
    strategies has no namespaces, that memory becomes the current one and
    its overview is written, the id among it, although its tabs are never
    written: the error panel shows the message of the error thrown, the
    detail panel stays hidden, and the tabs and the pending timers are those
    of the memory displayed before. *)
Theorem strategy_without_namespaces_keeps_the_old_tabs
    (memoryId : string) (outcome : fetchOutcome Memory.t) (memory : Memory.t)
    (strategies : list strategy) (s : strategy) (st : state) :
  okBody outcome = inr memory ->
  Memory.strategies memory = Some strategies ->
  s ∈ strategies ->
  namespaces s = None ->
  let st' := loadMemoryDetails toLocaleString namespacesTypeError memoryId outcome st in
  currentMemory st' = Some memory /\
  texts st' !! "detail-id" = Some (Memory.id memory) /\
  panes st' = panes st /\
  namespaceTimers st' = namespaceTimers st /\
  texts st' !! "error-message" = Some namespacesTypeError /\
  ("error-memory" ∉ hidden st') /\
  "memory-details" ∈ hidden st'.
Proof.
  intros Hok Hstrategies Hs Hnone. cbv zeta. unfold loadMemoryDetails. cbv zeta.
  rewrite Hok.
  destruct (displayMemoryDetails _ _ _ _) as [thrown st'] eqn:Hdisplay.
  assert (exists message, thrown = Some message) as [message ->].
  { revert Hdisplay. unfold displayMemoryDetails. cbv zeta. rewrite Hstrategies.
    change (default [] (Some strategies)) with strategies.
    match goal with
    | |- context [displayStrategies _ _ ?w] => generalize w
    end.
    intros written.
    destruct (proj2 (displayStrategies_throws strategies written)) as [message ->];
      [by exists s|].
    intros [= <- _]. by exists message. }
  pose proof (displayMemoryDetails_thrown _ _ _ _ Hdisplay) as (-> & Hpanes & Htimers).
  apply displayMemoryDetails_overview in Hdisplay as (_ & Hmemory & Hid & Hframe).
  pose proof (Hframe "memory-details" ltac:(done) ltac:(done) ltac:(done)) as Hd.
  change (hidden (setCurrentMemory ?m ?st0)) with (hidden st0) in Hd.
  change (hidden (issue ?r ?st0)) with (hidden st0) in Hd.
  rewrite !hidden_showElement, !hidden_hideElement in Hd. clear Hframe.
  split; [exact Hmemory|].
  split.
  { change (texts (showElement ?i (hideElement ?j (setText ?k ?t (consoleError ?l st')))))
      with (<[k := t]> (texts st')).
    by rewrite lookup_insert_ne. }
  split; [exact Hpanes|]. split; [exact Htimers|].
  split; [apply lookup_insert_eq|].
  rewrite !hidden_showElement, !hidden_hideElement.
  change (hidden (setText ?i ?t ?st0)) with (hidden st0).
  change (hidden (consoleError ?l ?st0)) with (hidden st0).
  clear Hmemory Hid Hpanes Htimers. intuition (try done; auto 10).
Qed.

(** ** Loading the list of memories *)

(** X21.  However the load of the list of memories ends, its request was
    issued once, the loading notice is hidden and exactly one of the list
    and the error notice is shown; the options of the selector are replaced,
    and the selection reset, only when the list was read. *)
Theorem list_or_error_is_shown
    (outcome : fetchOutcome (list Memory.t)) (st : state) :
  let st' := loadMemories outcome st in
  requests st' = requests st ++ [Request "GET" memoriesUrl None] /\
  "memory-loading" ∈ hidden st' /\
  ("memory-list" ∈ hidden st' <-> "memory-error" ∉ hidden st') /\
  match okBody outcome with
  | inr memories =>
      "memory-error" ∈ hidden st' /\
      memoryOptions st' = memories /\ memorySelectValue st' = EmptyString
  | inl _ =>
      "memory-list" ∈ hidden st' /\
      memoryOptions st' = memoryOptions st /\ memorySelectValue st' = memorySelectValue st
  end.
Proof.
  cbv zeta. unfold loadMemories. cbv zeta.
  destruct (okBody outcome) as [message|memories].
  - split; [reflexivity|].
    repeat (rewrite hidden_showElement || rewrite hidden_hideElement).
    assert (forall l st0, hidden (consoleError l st0) = hidden st0) as -> by done.
    assert (forall r st0, hidden (issue r st0) = hidden st0) as -> by done.
    repeat (rewrite hidden_showElement || rewrite hidden_hideElement).
    intuition (try done; auto 10).
  - split; [reflexivity|].
    repeat (rewrite hidden_showElement || rewrite hidden_hideElement).
    assert (forall v st0, hidden (setMemorySelectValue v st0) = hidden st0) as -> by done.
    assert (forall v st0, hidden (setMemoryOptions v st0) = hidden st0) as -> by done.
    assert (forall r st0, hidden (issue r st0) = hidden st0) as -> by done.
    repeat (rewrite hidden_showElement || rewrite hidden_hideElement).
    intuition (try done; auto 10).
Qed.

End MoreSelecting.

(** ** The preview cell *)

Lemma extractStrings_long (obj : json) (depth : nat) (s : string) :
  In s (extractStrings obj depth) -> 10 < JsString.length s.
Proof.
  revert obj depth s. fix IH 1.
  intros [| | |t|items|entries] depth s; cbn [extractStrings];
    destruct (3 <? depth); try done.
  - destruct (10 <? JsString.length t) eqn:Hlong; [|done].
    intros [<-|[]]. by apply Nat.ltb_lt.
  - induction items as [|v items IHitems]; cbn [flat_map]; [done|].
    rewrite in_app_iff. intros [Hv|Hitems]; [by apply (IH v (S depth))|by apply IHitems].
  - induction entries as [|[k v] entries IHentries]; cbn [flat_map]; [done|].
    rewrite in_app_iff. intros [Hv|Hentries]; [by apply (IH v (S depth))|by apply IHentries].
Qed.

Lemma firstTextField_truthy (obj : json) (fields : list string) (s : string) :
  firstTextField obj fields = Some s -> JsString.truthy s = true.
Proof.
  assert (forall o, textOf o = Some s -> JsString.truthy s = true) as Htext.
  { intros [[| | |t| |]|]; cbn; try done.
    destruct (JsString.truthy t) eqn:Ht; [|done]. by intros [= <-]. }
  induction fields as [|field fields IH]; cbn [firstTextField]; [done|].
  destruct (textOf (Json.get obj field)) eqn:Hown; [intros [= <-]; by eapply Htext|].
  destruct (textOf (nestedField obj field)) eqn:Hnested; [intros [= <-]; by eapply Htext|].
  exact IH.
Qed.

(** The text extracted from an object is never empty. *)
Lemma extractTextForPreview_truthy (entries : list (string * json)) :
  JsString.truthy (extractTextForPreview (JObj entries)) = true.
Proof.
  unfold extractTextForPreview. cbn [Json.truthy negb].
  destruct (firstTextField _ _) as [s|] eqn:Hfield; [by eapply firstTextField_truthy|].
  destruct (extractStrings _ _) as [|s l] eqn:Hstrings; [done|].
  assert (10 < JsString.length s) as Hlong
    by (apply (extractStrings_long (JObj entries) 0); rewrite Hstrings; by left).
  destruct s; [cbn in Hlong; lia|done].
Qed.

(** The two bytes after the first of a high surrogate that stands alone
    continue it. *)
Lemma units_continuation (k : nat) : JsString.units (ascii_of_nat (128 + k mod 64)) = 0.
Proof.
  unfold JsString.units, JsString.isContinuation. cbv zeta.
  assert (k mod 64 < 64) as Hk by (apply Nat.mod_upper_bound; lia).
  rewrite nat_ascii_embedding by lia.
  destruct (128 <=? 128 + k mod 64) eqn:Hlow; [|apply Nat.leb_gt in Hlow; lia].
  destruct (128 + k mod 64 <? 192) eqn:Hhigh; [done|apply Nat.ltb_ge in Hhigh; lia].
Qed.

Lemma length_highSurrogate (c : ascii) (rest : string) :
  JsString.length (JsString.highSurrogate c rest) <= 1.
Proof.
  unfold JsString.highSurrogate. destruct rest as [|c2 [|c3 rest]]; cbn [JsString.length]; [lia..|].
  cbv zeta. cbn [JsString.length]. rewrite !units_continuation.
  by vm_compute.
Qed.

(** [substring(0, n)] has at most [n] code units. *)
Lemma length_substring (n : nat) (s : string) :
  JsString.length (JsString.substring n s) <= n.
Proof.
  revert n. induction s as [|c s IH]; intros n; cbn [JsString.substring JsString.length]; [lia|].
  destruct (JsString.isContinuation c) eqn:Hc.
  - cbn [JsString.length]. unfold JsString.units. rewrite Hc. apply IH.
  - destruct n as [|n]; [done|].
    destruct (240 <=? nat_of_ascii c) eqn:Hfour.
    + destruct n as [|n].
      * pose proof (length_highSurrogate c s). lia.
      * cbn [JsString.length]. unfold JsString.units. rewrite Hc, Hfour.
        specialize (IH n). lia.
    + cbn [JsString.length]. unfold JsString.units. rewrite Hc, Hfour.
      specialize (IH n). lia.
Qed.

Lemma length_append (a b : string) :
  JsString.length (a +:+ b) = JsString.length a + JsString.length b.
Proof.
  induction a as [|c a IH]; [done|]. rewrite append_cons. cbn [JsString.length].
  rewrite IH. lia.
Qed.

Lemma truthy_append (a b : string) :
  JsString.truthy b = true -> JsString.truthy (a +:+ b) = true.
Proof. by destruct a. Qed.

(** X22.  The preview cell of a row is the badge that says there is no
    content, or the one line that holds, escaped, a text that is not empty
    and has at most 103 characters, as [length] counts them, in UTF-16 code
    units: the notice that no preview is available is never shown. *)
Theorem preview_is_a_badge_or_a_short_text (content metadata : option json) :
  generateContentPreview content metadata
  = Elem "span" ["badge"; "bg-secondary"] [] [Text "No Content"]
  \/
  exists text,
    generateContentPreview content metadata
    = Elem "div" ["small"; "text-muted"]
        [("style", "white-space: nowrap; overflow: hidden; text-overflow: ellipsis;")]
        (escapedText text)
    /\ JsString.truthy text = true
    /\ JsString.length text <= 103.
Proof.
  unfold generateContentPreview.
  destruct (negb (Json.hasKeys content) && negb (Json.hasKeys metadata)); [by left|].
  right. cbv zeta. unfold fullContent.
  match goal with
  | |- context [extractTextForPreview (JObj ?l)] =>
      pose proof (extractTextForPreview_truthy l) as Htruthy;
      set (previewText := extractTextForPreview (JObj l)) in *
  end.
  rewrite Htruthy. eexists. split; [reflexivity|].
  destruct (100 <? JsString.length previewText) eqn:Hlong.
  - split; [by apply truthy_append|].
    rewrite length_append. pose proof (length_substring 100 previewText).
    change (JsString.length "...") with 3. lia.
  - apply Nat.ltb_ge in Hlong. split; [done|lia].
Qed.

Section MoreRecordDeleting.

Variable toLocaleString : json -> string.

(** ** The header of a record table after a deletion *)












End MoreRecordDeleting.

(** ** The theorems of this part at concrete inputs *)



Lemma event_cache_keeps_the_last_of_an_id_witness :
  let older := Event.Make (Some "e1") (Some "older") None None None None None in
  let events := [older; event "e1"; event "e2"] in
  let st' := displayEvents toLocaleString GlobalEventsResults (Some events)
               (Some "s1") None selected in
  Forall (fun e => plainEvent e = true) events /\
  (forall e', e' ∈ [event "e2"] -> eventKey e' <> eventKey (event "e1")) /\
  Cache.get eventProperties (currentEventsData st') "e1"
  = Cache.Entry (CachedEvent (event "e1") (Some "s1") None) /\
  Cache.count (currentEventsData st') <= 3 /\
  forall forest,
    innerHTML GlobalEventsResults st' = Some forest ->
    flat_map itemIds forest = flat_map (fun e => [eventKey e; eventKey e]) events.
Proof.
  intros older events st'.
  assert (Forall (fun e => plainEvent e = true) events) as Hplain
    by (repeat constructor).
  assert (forall e', e' ∈ [event "e2"] -> eventKey e' <> eventKey (event "e1")) as Hafter.
  { intros e' He'. apply list_elem_of_singleton in He'. rewrite He'. discriminate. }
  split; [exact Hplain|]. split; [exact Hafter|].
  exact (event_cache_keeps_the_last_of_an_id toLocaleString GlobalEventsResults
           [older] [event "e2"] (event "e1") (Some "s1") None selected Hplain Hafter).
Defined.

Lemma blank_listing_form_issues_no_request_witness :
  let st := setInputValue "global-session-id" "   " selected in
  let outcome : fetchOutcome eventsResult := HttpOk (inr (EventsResult (Some [event "e1"]))) in
  currentMemory st = Some memory1 /\
  (JsString.truthy (JsString.trim (inputValue "global-session-id" st)) = false \/
   JsString.truthy (JsString.trim (inputValue "global-actor-id" st)) = false) /\
  executeGlobalListEvents toLocaleString outcome st
  = setGlobalEventsResults (showWarning "Please enter both Session ID and Actor ID.") st.
Proof.
  intros st outcome.
  assert (currentMemory st = Some memory1) as Hmemory by (vm_compute; reflexivity).
  assert (JsString.truthy (JsString.trim (inputValue "global-session-id" st)) = false \/
          JsString.truthy (JsString.trim (inputValue "global-actor-id" st)) = false)
    as Hblank by (left; vm_compute; reflexivity).
  split; [exact Hmemory|]. split; [exact Hblank|].
  exact (blank_listing_form_issues_no_request toLocaleString outcome memory1 st
           Hmemory Hblank).
Defined.

Lemma blank_record_forms_issue_no_request_witness :
  let st := selected in
  let p := newPane 0 strategy1 in
  let outcome : fetchOutcome recordsResult :=
    HttpOk (inr (RecordsResult (Some [record (Some "r1")]))) in
  currentStrategy 0 st = Found memory1 strategy1 /\
  panes st !! 0 = Some p /\
  (JsString.truthy (JsString.trim (namespaceInput p)) = false ->
   executeListMemoryRecords toLocaleString 0 outcome st
   = setInnerHTML (MemoryRecordsResults 0) (showWarning "Please enter a namespace.") st)
  /\
  (JsString.truthy (JsString.trim (searchQueryInput p)) = false \/
   JsString.truthy (JsString.trim (retrieveNamespaceInput p)) = false ->
   executeRetrieveMemoryRecords toLocaleString 0 outcome st
   = setInnerHTML (RetrieveResults 0)
       (showWarning "Please enter both search query and namespace.") st).
Proof.
  intros st p outcome.
  assert (currentStrategy 0 st = Found memory1 strategy1) as Hstrategy
    by (vm_compute; reflexivity).
  assert (panes st !! 0 = Some p) as Hpane by (vm_compute; reflexivity).
  split; [exact Hstrategy|]. split; [exact Hpane|].
  exact (blank_record_forms_issue_no_request toLocaleString 0 outcome memory1 strategy1
           p st Hstrategy Hpane).
Defined.

Lemma failed_add_event_shows_detail_and_keeps_content_witness :
  let st := setInputValue "add-event-content" " hello " selected in
  let st' := executeAddEvent
               (HttpError 400 "Bad Request"
                  (inr (ErrorBody (Some (JStr "content too long"))))) st in
  currentMemory st = Some memory1 /\
  JsString.truthy (JsString.trim (inputValue "add-event-content" st)) = true /\
  JsString.plainText "content too long" = true /\
  addEventResults st' = showError "Error creating event: content too long" /\
  inputValue "add-event-content" st' = inputValue "add-event-content" st /\
  currentEventsData st' = currentEventsData st /\
  currentRecordsData st' = currentRecordsData st.
Proof.
  intros st st'.
  assert (currentMemory st = Some memory1) as Hmemory by (vm_compute; reflexivity).
  assert (JsString.truthy (JsString.trim (inputValue "add-event-content" st)) = true)
    as Hcontent by (vm_compute; reflexivity).
  split; [exact Hmemory|]. split; [exact Hcontent|]. split; [reflexivity|].
  exact (failed_add_event_shows_detail_and_keeps_content 400 "Bad Request" "c"
           "ontent too long" memory1 st Hmemory Hcontent eq_refl).
Defined.

Lemma added_event_posts_trimmed_content_and_clears_field_witness :
  let st := setInputValue "add-event-content" " hello " selected in
  let st' := executeAddEvent
               (HttpOk (inr (AddEventResult (Some "Event created") (Some "e9")))) st in
  currentMemory st = Some memory1 /\
  JsString.truthy (JsString.trim (inputValue "add-event-content" st)) = true /\
  JsString.plainText "Event created (Event ID: e9)" = true /\
  inputValue "add-event-content" st' = EmptyString /\
  exists body,
    requests st' = requests st ++ [Request "POST" (addEventUrl "mem-1") (Some body)] /\
    Json.get body "content" = Some (JStr "hello") /\
    Json.get body "actorId" = Some (JStr "default") /\
    Json.get body "sessionId" = Some (JStr "default").
Proof.
  intros st st'.
  assert (currentMemory st = Some memory1) as Hmemory by (vm_compute; reflexivity).
  assert (JsString.truthy (JsString.trim (inputValue "add-event-content" st)) = true)
    as Hcontent by (vm_compute; reflexivity).
  split; [exact Hmemory|]. split; [exact Hcontent|]. split; [reflexivity|].
  exact (added_event_posts_trimmed_content_and_clears_field
           (AddEventResult (Some "Event created") (Some "e9")) memory1 st
           Hmemory Hcontent eq_refl).
Defined.


Lemma without_memory_nothing_is_requested_witness :
  let st := atLoad in
  let deletion : fetchOutcome json := HttpOk (inr JNull) in
  currentMemory st = None /\
  noop st (executeDeleteEvent "e1" (Some "s1") (Some "alice") deletion st) /\
  noop st (executeDeleteRecord "e1" "/ns/" deletion st).
Proof.
  intros st deletion.
  assert (currentMemory st = None) as Hnone by (vm_compute; reflexivity).
  split; [exact Hnone|].
  exact (proj2 (proj2 (proj2 (proj2 (proj2 (proj2
           (without_memory_nothing_is_requested toLocaleString 0 "e1" "/ns/"
              (Some "s1") (Some "alice")
              (HttpOk (inr (AddEventResult None None)))
              (HttpOk (inr (EventsResult None)))
              (HttpOk (inr (RecordsResult None)))
              deletion st Hnone))))))).
Defined.



Lemma event_deletion_address_names_one_event_witness :
  deleteEventUrl "mem-1" "e1" None (Some "alice")
  = deleteEventUrl "mem-1" "e1" (Some "null") (Some "alice") /\
  "mem-1" = "mem-1" /\ "e1" = "e1" /\
  JsString.ofNullable None = JsString.ofNullable (Some "null") /\
  JsString.ofNullable (Some "alice") = JsString.ofNullable (Some "alice").
Proof.
  assert (deleteEventUrl "mem-1" "e1" None (Some "alice")
          = deleteEventUrl "mem-1" "e1" (Some "null") (Some "alice")) as Hsame
    by reflexivity.
  split; [exact Hsame|].
  exact (event_deletion_address_names_one_event "mem-1" "e1" "mem-1" "e1"
           None (Some "alice") (Some "null") (Some "alice") Hsame).
Defined.

Lemma record_deletion_address_names_one_record_witness :
  deleteRecordUrl "mem-1" "r/1" "/strategy/S1/"
  = deleteRecordUrl "mem-1" "r/1" "/strategy/S1/" /\
  "mem-1" = "mem-1" /\ "r/1" = "r/1" /\ "/strategy/S1/" = "/strategy/S1/".
Proof.
  assert (deleteRecordUrl "mem-1" "r/1" "/strategy/S1/"
          = deleteRecordUrl "mem-1" "r/1" "/strategy/S1/") as Hsame by reflexivity.
  split; [exact Hsame|].
  exact (record_deletion_address_names_one_record "mem-1" "r/1" "/strategy/S1/"
           "mem-1" "r/1" "/strategy/S1/" Hsame).
Defined.





Lemma failed_load_keeps_the_current_memory_witness :
  let st := recordsListed in
  let outcome : fetchOutcome Memory.t := HttpError 404 "Not Found" (inl "no body") in
  let st' := loadMemoryDetails toLocaleString namespacesTypeError "mem-9" outcome st in
  okBody outcome = inl "HTTP 404: Not Found" /\
  texts st' !! "error-message" = Some "HTTP 404: Not Found" /\
  ("error-memory" ∉ hidden st') /\
  currentMemory st' = currentMemory st /\
  panes st' = panes st /\
  namespaceTimers st' = namespaceTimers st /\
  currentEventsData st' = currentEventsData st /\
  currentRecordsData st' = currentRecordsData st.
Proof.
  intros st outcome st'.
  assert (okBody outcome = inl "HTTP 404: Not Found") as Hfailed
    by (vm_compute; reflexivity).
  split; [exact Hfailed|].
  exact (failed_load_keeps_the_current_memory toLocaleString namespacesTypeError
           "mem-9" "HTTP 404: Not Found" outcome st Hfailed).
Defined.

Lemma strategy_without_namespaces_keeps_the_old_tabs_witness :
  let st := recordsListed in
  let bare := Strategy "S3" (Some "bare") None in
  let memory := Memory.Make "mem-3" (Some "Third") (Some "ACTIVE") None None None None
                            None None (Some [strategy1; bare]) in
  let outcome : fetchOutcome Memory.t := HttpOk (inr memory) in
  let st' := loadMemoryDetails toLocaleString namespacesTypeError "mem-3" outcome st in
  bare ∈ [strategy1; bare] /\
  namespaces bare = None /\
  currentMemory st' = Some memory /\
  texts st' !! "detail-id" = Some "mem-3" /\
  panes st' = panes st /\
  namespaceTimers st' = namespaceTimers st /\
  texts st' !! "error-message" = Some namespacesTypeError /\
  ("error-memory" ∉ hidden st') /\
  "memory-details" ∈ hidden st'.
Proof.
  intros st bare memory outcome st'.
  assert (bare ∈ [strategy1; bare]) as Hbare
    by apply list_elem_of_further, list_elem_of_here.
  assert (namespaces bare = None) as Hnone by reflexivity.
  split; [exact Hbare|]. split; [exact Hnone|].
  exact (strategy_without_namespaces_keeps_the_old_tabs toLocaleString
           namespacesTypeError "mem-3" outcome memory [strategy1; bare] bare st
           eq_refl eq_refl Hbare Hnone).
Defined.

